(** * hycode: backend/claudeapi.py -- the [ClaudeChatbot] class

    A shallow embedding of the conversation session manager and of the
    history store and search of [backend/claudeapi.py], and the
    properties of its behaviour.

    Python [str] values are modelled as [string] (a character is a code
    point below 256), [int] as [Z], [Optional[str]] as [option string],
    the message [dict] literal as a record, and the methods of the class
    as computations of a state-and-exception monad over the object's
    attributes, the wall clock, the completion client and standard
    output. *)

From Stdlib Require Import Bool Arith NArith ZArith Lia List String Ascii.
From Stdlib Require Import Sorted Permutation Floats.
Import ListNotations.

Local Open Scope string_scope.
Local Open Scope list_scope.

(* ================================================================= *)
(** ** Python builtins used by the class *)

Module Py.

(** [str.lower] on one character.  Below code point 256 the cased
    characters are [A]..[Z] and the Latin-1 capitals U+00C0..U+00DE
    (the multiplication sign U+00D7 is not a letter); each lies 32
    below its lowercase form. *)
Definition is_upper (n : nat) : bool :=
  (Nat.leb 65 n && Nat.leb n 90)
  || (Nat.leb 192 n && Nat.leb n 222 && negb (Nat.eqb n 215)).

Definition lower_char (c : ascii) : ascii :=
  let n := nat_of_ascii c in
  if is_upper n then ascii_of_nat (n + 32) else c.

(** [s.lower()] *)
Fixpoint lower (s : string) : string :=
  match s with
  | EmptyString => EmptyString
  | String c s' => String (lower_char c) (lower s')
  end.

(** [needle in hay] on strings: [needle] occurs at some offset. *)
Fixpoint str_in (needle hay : string) : bool :=
  if String.prefix needle hay then true
  else match hay with
       | EmptyString => false
       | String _ hay' => str_in needle hay'
       end.

(** [not x] / truth value of an [Optional[str]]: [None] and the empty
    string are falsy. *)
Definition truthy (x : option string) : bool :=
  match x with
  | None => false
  | Some EmptyString => false
  | Some (String _ _) => true
  end.

(** [a or b] on [Optional[str]] operands. *)
Definition or_else (a b : option string) : option string :=
  if truthy a then a else b.

(** [l[:k]] for an [int] [k]: a non-negative bound keeps the first [k]
    items, a negative one counts from the end of the list. *)
Definition slice_to {A} (l : list A) (k : Z) : list A :=
  if (k <? 0)%Z
  then firstn (Z.to_nat (Z.max 0 (Z.of_nat (List.length l) + k))) l
  else firstn (Z.to_nat k) l.

Section Sort.
Context {A K : Type}.
Variable key : A -> K.
Variable lt : K -> K -> bool.

(** One step of a stable insertion: [x], which came before every item
    of [l] in the input, goes in front of the first item whose key is
    not smaller than its own. *)
Fixpoint insert (x : A) (l : list A) : list A :=
  match l with
  | [] => [x]
  | y :: l' => if lt (key y) (key x) then y :: insert x l' else x :: y :: l'
  end.

Fixpoint stable_sort (l : list A) : list A :=
  match l with
  | [] => []
  | x :: l' => insert x (stable_sort l')
  end.

(** [l.sort(key=key, reverse=reverse)]: a stable sort that compares
    keys with [<] only; with [reverse] the list is reversed before and
    after, which keeps equal keys in their original order. *)
Definition sort (reverse : bool) (l : list A) : list A :=
  if reverse then rev (stable_sort (rev l)) else stable_sort l.

End Sort.

End Py.

(* ================================================================= *)
(** ** [json.dumps] and [json.loads] on the message dictionary *)

Module Json.

Definition dquote : ascii := ascii_of_nat 34.
Definition backslash : ascii := ascii_of_nat 92.

(** A string literal between double quotes, as it stands in the
    output. *)
Definition quoted (s : string) : string :=
  String dquote (s ++ String dquote EmptyString).

Definition hex_digit (n : nat) : ascii :=
  if Nat.ltb n 10 then ascii_of_nat (48 + n) else ascii_of_nat (87 + n).

(** The value of a hexadecimal digit, either case. *)
Definition hex_value (c : ascii) : option nat :=
  let n := nat_of_ascii c in
  if (Nat.leb 48 n && Nat.leb n 57)%bool then Some (n - 48)
  else if (Nat.leb 97 n && Nat.leb n 102)%bool then Some (n - 87)
  else if (Nat.leb 65 n && Nat.leb n 70)%bool then Some (n - 55)
  else None.

(** The encoder's replacement of one character ([ensure_ascii] is on):
    the quote and the backslash are escaped, the five control
    characters with a short form use it, printable ASCII stands for
    itself and everything else becomes [\u00xx]. *)
Definition escape_char (c : ascii) : string :=
  let n := nat_of_ascii c in
  if Nat.eqb n 34 then String backslash (String dquote EmptyString)
  else if Nat.eqb n 92 then String backslash (String backslash EmptyString)
  else if Nat.eqb n 10 then String backslash "n"
  else if Nat.eqb n 13 then String backslash "r"
  else if Nat.eqb n 9 then String backslash "t"
  else if Nat.eqb n 8 then String backslash "b"
  else if Nat.eqb n 12 then String backslash "f"
  else if (Nat.leb 32 n && Nat.leb n 126)%bool then String c EmptyString
  else String backslash
         ("u00" ++ String (hex_digit (n / 16))
                     (String (hex_digit (n mod 16)) EmptyString)).

Fixpoint escape (s : string) : string :=
  match s with
  | EmptyString => EmptyString
  | String c s' => escape_char c ++ escape s'
  end.

(** The character a one-letter escape stands for. *)
Definition unescape_short (c : ascii) : option ascii :=
  let n := nat_of_ascii c in
  if Nat.eqb n 34 then Some dquote
  else if Nat.eqb n 92 then Some backslash
  else if Nat.eqb n 47 then Some "/"%char
  else if Nat.eqb n 98 then Some (ascii_of_nat 8)
  else if Nat.eqb n 102 then Some (ascii_of_nat 12)
  else if Nat.eqb n 110 then Some (ascii_of_nat 10)
  else if Nat.eqb n 114 then Some (ascii_of_nat 13)
  else if Nat.eqb n 116 then Some (ascii_of_nat 9)
  else None.

(** The code point of [\uXXXX]; a code point outside the modelled
    character range has no value here. *)
Definition unescape_u (h1 h2 h3 h4 : ascii) : option ascii :=
  match hex_value h1, hex_value h2, hex_value h3, hex_value h4 with
  | Some a, Some b, Some c, Some d =>
      let n := ((a * 16 + b) * 16 + c) * 16 + d in
      if Nat.ltb n 256 then Some (ascii_of_nat n) else None
  | _, _, _, _ => None
  end.

Definition cons_fst (c : ascii) (r : option (string * string))
  : option (string * string) :=
  match r with
  | Some (s, rest) => Some (String c s, rest)
  | None => None
  end.

(** The decoder's scan of a string body, from just after the opening
    quote: the decoded text and what follows the closing quote.  A raw
    control character, an unknown escape or a missing closing quote is
    a decoding error. *)
Fixpoint scanstring (s : string) : option (string * string) :=
  match s with
  | EmptyString => None
  | String c s1 =>
      if Ascii.eqb c dquote then Some (EmptyString, s1)
      else if Ascii.eqb c backslash then
        match s1 with
        | EmptyString => None
        | String e s2 =>
            if Ascii.eqb e "u"%char then
              match s2 with
              | String h1 (String h2 (String h3 (String h4 s3))) =>
                  match unescape_u h1 h2 h3 h4 with
                  | Some d => cons_fst d (scanstring s3)
                  | None => None
                  end
              | _ => None
              end
            else
              match unescape_short e with
              | Some d => cons_fst d (scanstring s2)
              | None => None
              end
        end
      else if Nat.ltb (nat_of_ascii c) 32 then None
      else cons_fst c (scanstring s1)
  end.

(** Consume the literal [lit] at the head of [s]. *)
Fixpoint expect (lit s : string) : option string :=
  match lit with
  | EmptyString => Some s
  | String c lit' =>
      match s with
      | EmptyString => None
      | String d s' => if Ascii.eqb c d then expect lit' s' else None
      end
  end.

End Json.

(* ================================================================= *)
(** ** Data model *)

(** The message dictionary [{"role": .., "content": .., "timestamp": ..}]
    built by [_store_message]. *)
Record message := Message {
  msg_role : string;
  msg_content : string;
  msg_timestamp : string
}.

(** The [meta] dictionary of a stored document.  [conversation_id] is
    the attribute [current_conversation_id] at the time of writing,
    which is [None] before any conversation was started. *)
Record meta := Meta {
  meta_conversation_id : option string;
  meta_timestamp : string;
  meta_role : string
}.

Record Document := mkDocument {
  doc_content : string;
  doc_meta : meta
}.

(** [json.dumps(message)]: the members in insertion order, with the
    default separators. *)
Definition json_dumps (m : message) : string :=
  "{" ++ Json.quoted "role" ++ ": " ++ Json.quoted (Json.escape (msg_role m))
  ++ ", " ++ Json.quoted "content" ++ ": "
  ++ Json.quoted (Json.escape (msg_content m))
  ++ ", " ++ Json.quoted "timestamp" ++ ": "
  ++ Json.quoted (Json.escape (msg_timestamp m))
  ++ "}".

(** What stands between one string body and the next: the separator,
    the key and the opening quote of its value. *)
Definition member_open (sep key : string) : string :=
  sep ++ Json.quoted key ++ ": " ++ String Json.dquote EmptyString.

(** [json.loads] on the documents this class writes: an object whose
    members are the three strings of a message.  Any other text is a
    decoding error ([None]). *)
Definition json_loads (s : string) : option message :=
  match Json.expect (member_open "{" "role") s with
  | None => None
  | Some s1 =>
  match Json.scanstring s1 with
  | None => None
  | Some (r, s2) =>
  match Json.expect (member_open ", " "content") s2 with
  | None => None
  | Some s3 =>
  match Json.scanstring s3 with
  | None => None
  | Some (c, s4) =>
  match Json.expect (member_open ", " "timestamp") s4 with
  | None => None
  | Some s5 =>
  match Json.scanstring s5 with
  | None => None
  | Some (t, s6) =>
      if String.eqb s6 "}" then Some (Message r c t) else None
  end end end end end end.

(* ================================================================= *)
(** ** [datetime] *)

(** A naive [datetime] value.  The type keeps the year within
    1..9999, the month within 1..12, the day within 1..31 and the
    time-of-day fields within their units ([wf_datetime]). *)
Record datetime := mkDatetime {
  year : N; month : N; day : N;
  hour : N; minute : N; second : N;
  microsecond : N
}.

Definition wf_datetime (d : datetime) : Prop :=
  (1 <= year d <= 9999 /\ 1 <= month d <= 12 /\ 1 <= day d <= 31 /\
   hour d < 24 /\ minute d < 60 /\ second d < 60 /\
   microsecond d < 1000000)%N.

Definition digit (n : N) : ascii := ascii_of_N (48 + n).

Fixpoint pow10 (w : nat) : N :=
  match w with
  | 0 => 1%N
  | S w' => (10 * pow10 w')%N
  end.

(** [w] decimal digits of [n], most significant first ([%0wd] for a
    value below [10 ^ w]). *)
Fixpoint digits (w : nat) (n : N) : string :=
  match w with
  | 0 => EmptyString
  | S w' => String (digit ((n / pow10 w') mod 10)) (digits w' n)
  end.

(** [d.strftime("%Y%m%d_%H%M%S")] (the year on four digits, as for
    the years from 1000 on). *)
Definition strftime (d : datetime) : string :=
  digits 4 (year d) ++ digits 2 (month d) ++ digits 2 (day d) ++ "_"
  ++ digits 2 (hour d) ++ digits 2 (minute d) ++ digits 2 (second d).

(** [d.isoformat()]: the fraction is printed only when the microsecond
    field is not zero. *)
Definition isoformat (d : datetime) : string :=
  digits 4 (year d) ++ "-" ++ digits 2 (month d) ++ "-" ++ digits 2 (day d)
  ++ "T" ++ digits 2 (hour d) ++ ":" ++ digits 2 (minute d) ++ ":"
  ++ digits 2 (second d)
  ++ (if N.eqb (microsecond d) 0 then EmptyString
      else "." ++ digits 6 (microsecond d)).

(** Chronological comparison: field by field, most significant first. *)
Definition lex (c : comparison) (k : comparison) : comparison :=
  match c with Eq => k | _ => c end.

Definition datetime_compare (a b : datetime) : comparison :=
  lex (N.compare (year a) (year b))
  (lex (N.compare (month a) (month b))
  (lex (N.compare (day a) (day b))
  (lex (N.compare (hour a) (hour b))
  (lex (N.compare (minute a) (minute b))
  (lex (N.compare (second a) (second b))
       (N.compare (microsecond a) (microsecond b))))))).

Definition datetime_le (a b : datetime) : Prop := datetime_compare a b <> Gt.

(* ================================================================= *)
(** ** Collaborators *)

(** An exception value, kept as what [str(e)] gives. *)
Inductive exn := Exception (str : string).

Definition str (e : exn) : string := let 'Exception s := e in s.

Inductive outcome (A : Type) :=
| Returns (a : A)
| Raises (e : exn).
Arguments Returns {A} a.
Arguments Raises {A} e.

(** A reply of the completion service: its list of content blocks, of
    which the class reads [content[0].text]. *)
Record content_block := TextBlock { text : string }.
Record response := Response { content : list content_block }.

(** Modelled from the spec: the document store ([InMemoryDocumentStore],
    an external library).  Its contract with the class is to accept a
    record and persist it, and to return the records, all of them or
    those whose [conversation_id] tag equals a given one, in insertion
    order; there is no de-duplication, update or deletion. *)
Definition document_store_t := list Document.

Definition write_documents (docs : list Document) (store : document_store_t)
  : document_store_t := store ++ docs.

(** The filter [{"conversation_id": v}]: the tag of the record equals
    [v]. *)
Definition matches_filter (v : option string) (d : Document) : bool :=
  match meta_conversation_id (doc_meta d), v with
  | Some c, Some c' => String.eqb c c'
  | None, None => true
  | _, _ => false
  end.

Definition get_all_documents (filters : option (option string))
  (store : document_store_t) : list Document :=
  match filters with
  | None => store
  | Some conv_id => filter (matches_filter conv_id) store
  end.

(** What the object asks of its collaborators, in the order it asks. *)
Inductive event :=
| Wrote (d : Document)
| Queried (filters : option (option string))
| Asked (model_name user_content : string) (max_tokens : Z).

(* ================================================================= *)
(** ** The object, its environment and the monad of its methods *)

Definition MODEL_NAME : string := "claude-3-haiku-20240307".

(** The attributes of a [ClaudeChatbot] that its methods read or
    write. *)
Record chatbot := mkChatbot {
  model : string;
  document_store : document_store_t;
  current_conversation_id : option string;
  messages : list message
}.

(** The object together with what its methods observe of the outside:
    how many times the clock and the completion service were asked, the
    lines printed so far, and the requests made to the collaborators. *)
Record world := mkWorld {
  self : chatbot;
  clock_reads : nat;
  client_calls : nat;
  stdout : list string;
  trace : list event
}.

(** [__init__] *)
Definition init : world :=
  mkWorld (mkChatbot MODEL_NAME [] None []) 0 0 [] [].

Definition M (A : Type) : Type := world -> outcome A * world.

Definition ret {A} (a : A) : M A := fun w => (Returns a, w).

Definition raise {A} (e : exn) : M A := fun w => (Raises e, w).

Definition bind {A B} (m : M A) (k : A -> M B) : M B :=
  fun w => match m w with
           | (Returns a, w') => k a w'
           | (Raises e, w') => (Raises e, w')
           end.

(** [try: body except Exception as e: handler(e)] *)
Definition try_except {A} (body : M A) (handler : exn -> M A) : M A :=
  fun w => match body w with
           | (Returns a, w') => (Returns a, w')
           | (Raises e, w') => handler e w'
           end.

Declare Scope py_scope.
Delimit Scope py_scope with py.
Notation "x <- m ;; k" := (bind m (fun x => k))
  (at level 61, m at next level, right associativity) : py_scope.
Notation "m ;; k" := (bind m (fun _ => k))
  (at level 61, right associativity) : py_scope.
Local Open Scope py_scope.

Definition get_self : M chatbot := fun w => (Returns (self w), w).

Definition set_self (c : chatbot) : M unit :=
  fun w => (Returns tt,
            mkWorld c (clock_reads w) (client_calls w) (stdout w) (trace w)).

Definition set_current_conversation_id (v : option string) : M unit :=
  c <- get_self ;;
  set_self (mkChatbot (model c) (document_store c) v (messages c)).

Definition set_messages (v : list message) : M unit :=
  c <- get_self ;;
  set_self (mkChatbot (model c) (document_store c)
                      (current_conversation_id c) v).

Definition log (e : event) : M unit :=
  fun w => (Returns tt,
            mkWorld (self w) (clock_reads w) (client_calls w) (stdout w)
                    (trace w ++ [e])).

Definition print (line : string) : M unit :=
  fun w => (Returns tt,
            mkWorld (self w) (clock_reads w) (client_calls w)
                    (stdout w ++ [line]) (trace w)).

(** [self.document_store.write_documents([doc])] *)
Definition store_write (doc : Document) : M unit :=
  c <- get_self ;;
  set_self (mkChatbot (model c) (write_documents [doc] (document_store c))
                      (current_conversation_id c) (messages c)) ;;
  log (Wrote doc).

(** [self.document_store.get_all_documents(filters=..)] *)
Definition store_get_all (filters : option (option string))
  : M (list Document) :=
  c <- get_self ;;
  log (Queried filters) ;;
  ret (get_all_documents filters (document_store c)).

(** [for x in l: acc = body x acc] *)
Fixpoint for_each {A S} (l : list A) (body : A -> S -> M S) (acc : S) : M S :=
  match l with
  | [] => ret acc
  | x :: l' => acc' <- body x acc ;; for_each l' body acc'
  end.

(** [[f x for x in l]] *)
Fixpoint map_m {A B} (f : A -> M B) (l : list A) : M (list B) :=
  match l with
  | [] => ret []
  | x :: l' => y <- f x ;; ys <- map_m f l' ;; ret (y :: ys)
  end.

(** [l[0]] *)
Definition index0 {A} (l : list A) : M A :=
  match l with
  | x :: _ => ret x
  | [] => raise (Exception "list index out of range")
  end.

(** [json.loads(s)] as a step of a method: a decoding error is
    raised. *)
Definition loads (s : string) : M message :=
  match json_loads s with
  | Some m => ret m
  | None => raise (Exception "Expecting value")
  end.

(* ================================================================= *)
(** ** The methods of [ClaudeChatbot] *)

(** An entry of the list [search_conversations] returns. *)
Record search_result := SearchResult {
  sr_conversation_id : option string;
  sr_message : message;
  sr_score : float
}.

(** What the outside answers.  [clock n] is what the [n]-th call of
    [datetime.now()] returns (the wall clock), always a [datetime]
    within the bounds of its type; [client n] is what the [n]-th call
    of [client.messages.create] does, given the model name, the content
    of the single user message and [max_tokens]. *)
Class Env := {
  clock : nat -> datetime;
  clock_valid : forall n, wf_datetime (clock n);
  client : nat -> string -> string -> Z -> outcome response
}.

Section ClaudeChatbot.

Context {env : Env}.

(** [datetime.now()] *)
Definition datetime_now : M datetime :=
  fun w => (Returns (clock (clock_reads w)),
            mkWorld (self w) (S (clock_reads w)) (client_calls w) (stdout w)
                    (trace w)).

(** [self.client.messages.create(model=.., messages=[..], max_tokens=..)] *)
Definition messages_create (model_name user_content : string) (max_tokens : Z)
  : M response :=
  fun w => (client (client_calls w) model_name user_content max_tokens,
            mkWorld (self w) (clock_reads w) (S (client_calls w)) (stdout w)
                    (trace w ++ [Asked model_name user_content max_tokens])).

Definition start_new_conversation : M string :=
  now <- datetime_now ;;
  set_current_conversation_id (Some (strftime now)) ;;
  set_messages [] ;;
  ret (strftime now).

Definition _store_message (role content : string) : M unit :=
  now <- datetime_now ;;
  let timestamp := isoformat now in
  let message := Message role content timestamp in
  c <- get_self ;;
  set_messages (messages c ++ [message]) ;;
  c <- get_self ;;
  let doc := mkDocument (json_dumps message)
               (Meta (current_conversation_id c) timestamp role) in
  store_write doc.

Definition chat (user_input : string) : M string :=
  c <- get_self ;;
  (if negb (Py.truthy (current_conversation_id c))
   then start_new_conversation ;; ret tt
   else ret tt) ;;
  _store_message "user" user_input ;;
  try_except
    (c <- get_self ;;
     response <- messages_create (model c) user_input 1024 ;;
     block <- index0 (content response) ;;
     let assistant_message := text block in
     _store_message "assistant" assistant_message ;;
     ret assistant_message)
    (fun e =>
       print ("Error communicating with Claude: " ++ str e)%string ;;
       ret ("Error: " ++ str e)%string).

Definition get_conversation_history (conversation_id : option string)
  : M (list message) :=
  c <- get_self ;;
  let conv_id := Py.or_else conversation_id (current_conversation_id c) in
  if negb (Py.truthy conv_id) then ret []
  else
    docs <- store_get_all (Some conv_id) ;;
    messages <- map_m (fun doc => loads (doc_content doc)) docs ;;
    ret (Py.sort msg_timestamp String.ltb false messages).

Definition search_conversations (query : string) (top_k : Z)
  : M (list search_result) :=
  docs <- store_get_all None ;;
  results <- for_each docs
    (fun doc results =>
       message <- loads (doc_content doc) ;;
       if Py.str_in (Py.lower query) (Py.lower (msg_content message))
       then ret (results ++
                 [SearchResult
                    (meta_conversation_id (doc_meta doc)) message
                    (if Py.str_in (Py.lower query)
                                  (Py.lower (msg_content message))
                     then 1%float else 0%float)])
       else ret results) [] ;;
  ret (Py.slice_to (Py.sort sr_score PrimFloat.ltb true results) top_k).

(** The default value of [top_k]. *)
Definition default_top_k : Z := 5.

(** A call of a method of the object by its user, and the state the
    object and its environment are left in after a sequence of calls.
    An exception that reaches the caller leaves them as they were when
    it was raised. *)
Inductive call :=
| Start
| Chat (user_input : string)
| Store (role content : string)
| History (conversation_id : option string)
| Search (query : string) (top_k : Z).

Definition exec (c : call) (w : world) : world :=
  match c with
  | Start => snd (start_new_conversation w)
  | Chat user_input => snd (chat user_input w)
  | Store role content => snd (_store_message role content w)
  | History conversation_id => snd (get_conversation_history conversation_id w)
  | Search query top_k => snd (search_conversations query top_k w)
  end.

Definition run (calls : list call) (w : world) : world :=
  fold_left (fun w c => exec c w) calls w.

(** [str(x)] inside an f-string, for an [Optional[str]]. *)
Definition format_optional (x : option string) : string :=
  match x with
  | Some s => s
  | None => "None"
  end.

Definition newline : string := String (ascii_of_nat 10) EmptyString.

Definition QUESTION : string :=
  "Hello! Can you help me understand quantum computing?".

(** The example run under [if __name__ == "__main__"], from the object
    [ClaudeChatbot()] has built ([init]). *)
Definition main : M unit :=
  conv_id <- start_new_conversation ;;
  try_except
    (response <- chat QUESTION ;;
     print ("Claude: " ++ response)%string ;;
     history <- get_conversation_history None ;;
     print (newline ++ "Conversation History:")%string ;;
     for_each history
       (fun message _ =>
          print (msg_role message ++ ": " ++ msg_content message)%string)
       tt ;;
     search_results <- search_conversations "quantum" default_top_k ;;
     print (newline ++ "Search Results for 'quantum':")%string ;;
     for_each search_results
       (fun result _ =>
          print ("Conversation "
                 ++ format_optional (sr_conversation_id result) ++ ": "
                 ++ msg_content (sr_message result))%string)
       tt)
    (fun e => print ("Error: " ++ str e)%string).

End ClaudeChatbot.

(* ================================================================= *)
(** ** Notions used in the statements *)

(** [a <= b] on strings, as [sort] and the comparisons of Python see
    it. *)
Definition string_le (a b : string) : Prop := String.leb a b = true.

(** The document [_store_message] writes for a message of a
    conversation. *)
Definition doc_of (cid : option string) (m : message) : Document :=
  mkDocument (json_dumps m) (Meta cid (msg_timestamp m) (msg_role m)).

(** The message a stored document holds. *)
Definition decode (d : Document) : message :=
  match json_loads (doc_content d) with
  | Some m => m
  | None => Message "" "" ""
  end.

(** The content of the document is read by [json.loads]. *)
Definition well_formed (d : Document) : Prop :=
  json_loads (doc_content d) <> None.

(** The test of the loop of [search_conversations] on a stored
    document. *)
Definition is_match (query : string) (d : Document) : bool :=
  Py.str_in (Py.lower query) (Py.lower (msg_content (decode d))).

(** The entries of the matches, as a comprehension over the store. *)
Definition scan (query : string) (store : document_store_t)
  : list search_result :=
  map (fun d => SearchResult (meta_conversation_id (doc_meta d)) (decode d)
                             1%float)
      (filter (is_match query) store).

(** The stored messages of a conversation, in storage order. *)
Definition stored_messages (conv_id : string) (store : document_store_t)
  : list message :=
  map decode (get_all_documents (Some (Some conv_id)) store).

(** [w] with [t] as the requests made so far. *)
Definition with_trace (w : world) (t : list event) : world :=
  mkWorld (self w) (clock_reads w) (client_calls w) (stdout w) t.

(** [a] is not later than [b] by their timestamps. *)
Definition not_later (a b : message) : Prop :=
  string_le (msg_timestamp a) (msg_timestamp b).

Section Derived.

Context {env : Env}.

(** The timestamp the next call of [_store_message] gives. *)
Definition next_timestamp (w : world) : string :=
  isoformat (clock (clock_reads w)).

(** The state after a successful call of a method, without its
    result. *)
Definition started (w : world) : world := snd (start_new_conversation w).

Definition stored (role content : string) (w : world) : world :=
  snd (_store_message role content w).

(** [chat] up to the request to the completion service: a conversation
    is started when there is none, and the user message is stored. *)
Definition ensured (w : world) : world :=
  if Py.truthy (current_conversation_id (self w)) then w else started w.

(** The state once the completion service was called. *)
Definition asked (user_input : string) (w : world) : world :=
  mkWorld (self w) (clock_reads w) (S (client_calls w)) (stdout w)
          (trace w ++ [Asked (model (self w)) user_input 1024]).

(** The state once [line] was printed. *)
Definition printed (line : string) (w : world) : world :=
  mkWorld (self w) (clock_reads w) (client_calls w) (stdout w ++ [line])
          (trace w).

(** What the body of the [try] statement of [chat] comes to: the text
    of the first content block of the reply, or the exception raised by
    the service or by reading an empty reply. *)
Definition completion (user_input : string) (w : world) : outcome string :=
  match client (client_calls w) (model (self w)) user_input 1024 with
  | Returns r =>
      match content r with
      | b :: _ => Returns (text b)
      | [] => Raises (Exception "list index out of range")
      end
  | Raises e => Raises e
  end.

(** [store_at n st]: the store holds documents written by
    [_store_message], each with the timestamp of a clock reading, the
    readings in increasing order and all before the [n]-th. *)
Inductive store_at : nat -> document_store_t -> Prop :=
| store_at_nil n : store_at n []
| store_at_snoc n i st cid role content :
    store_at i st -> i < n ->
    store_at n (st ++ [doc_of cid (Message role content
                                           (isoformat (clock i)))]).

(** What every sequence of calls keeps: the store is as
    [_store_message] writes it, and the identifier of the current
    conversation, when there is one, is not empty. *)
Record inv (w : world) : Prop := mk_inv {
  inv_store : store_at (clock_reads w) (document_store (self w));
  inv_cid : current_conversation_id (self w) = None
            \/ Py.truthy (current_conversation_id (self w)) = true
}.

End Derived.

(* ================================================================= *)
(** ** Sample environments *)

(** A clock that advances one second at each reading, up to the end of
    the minute. *)
Definition slow_clock (n : nat) : datetime :=
  mkDatetime 2024 1 1 12 0 (N.min (N.of_nat n) 59) 0.

(** A clock that advances one microsecond at each reading: all the
    readings of a session fall within one second. *)
Definition fast_clock (n : nat) : datetime :=
  mkDatetime 2024 1 1 12 0 0 (N.min (N.of_nat n) 999999).

(** A clock set back by an hour after its second reading (local time
    at the end of daylight saving time). *)
Definition set_back_clock (n : nat) : datetime :=
  match n with
  | 0 => mkDatetime 2024 10 27 2 59 58 0
  | 1 => mkDatetime 2024 10 27 2 59 59 0
  | _ => mkDatetime 2024 10 27 2 0 (N.min (N.of_nat n) 59) 0
  end.

(** A service that greets, and one that cannot be reached. *)
Definition greeting (n : nat) (model_name user_content : string)
  (max_tokens : Z) : outcome response :=
  Returns (Response [TextBlock "Hi there"]).

Definition unreachable (n : nat) (model_name user_content : string)
  (max_tokens : Z) : outcome response :=
  Raises (Exception "Connection error.").

(** The readings of the sample clocks are within the bounds of
    [datetime]. *)
Lemma slow_clock_wf (i : nat) : wf_datetime (slow_clock i).
Proof. unfold wf_datetime, slow_clock; simpl. lia. Qed.

Lemma fast_clock_wf (i : nat) : wf_datetime (fast_clock i).
Proof. unfold wf_datetime, fast_clock; simpl. lia. Qed.

Lemma set_back_clock_wf (i : nat) : wf_datetime (set_back_clock i).
Proof.
  unfold wf_datetime, set_back_clock.
  destruct i as [|[|i]]; cbn [year month day hour minute second microsecond];
    lia.
Qed.

(** A service whose reply has no content block. *)
Definition silent (n : nat) (model_name user_content : string)
  (max_tokens : Z) : outcome response :=
  Returns (Response []).

Definition mute : Env :=
  {| clock := slow_clock; clock_valid := slow_clock_wf; client := silent |}.

Definition steady : Env :=
  {| clock := slow_clock; clock_valid := slow_clock_wf; client := greeting |}.

Definition quick : Env :=
  {| clock := fast_clock; clock_valid := fast_clock_wf; client := greeting |}.

Definition offline : Env :=
  {| clock := fast_clock; clock_valid := fast_clock_wf;
     client := unreachable |}.

Definition set_back : Env :=
  {| clock := set_back_clock; clock_valid := set_back_clock_wf;
     client := greeting |}.

(* ================================================================= *)
(** * Properties *)

(* ================================================================= *)
(** ** The builtins *)

Module PyFacts.
Import Py.

Lemma prefix_iff (n h : string) :
  String.prefix n h = true <-> exists post, h = (n ++ post)%string.
Proof.
  revert h; induction n as [|a n IH]; intros h; simpl.
  - destruct h; simpl; split; eauto.
  - destruct h as [|b h]; simpl.
    + split; [discriminate | intros [post H]; discriminate].
    + destruct (ascii_dec a b) as [->|Hab].
      * rewrite IH. split; intros [post H]; exists post; congruence.
      * split; [discriminate | intros [post H]; congruence].
Qed.

(** [str_in] decides the occurrence of [n] as a contiguous part of
    [h]. *)
Lemma str_in_iff (n h : string) :
  str_in n h = true <-> exists pre post, h = (pre ++ n ++ post)%string.
Proof.
  induction h as [|b h IH]; cbn [str_in].
  - destruct (String.prefix n "") eqn:E.
    + split; auto. intros _. apply prefix_iff in E as [post E].
      exists EmptyString, post. exact E.
    + split; [discriminate|]. intros (pre & post & H).
      destruct pre; simpl in H.
      * assert (String.prefix n "" = true) by (apply prefix_iff; eauto).
        congruence.
      * discriminate.
  - destruct (String.prefix n (String b h)) eqn:E.
    + split; auto. intros _. apply prefix_iff in E as [post E].
      exists EmptyString, post. exact E.
    + rewrite IH. split.
      * intros (pre & post & H). exists (String b pre), post.
        simpl. congruence.
      * intros (pre & post & H). destruct pre as [|c pre]; simpl in H.
        -- assert (String.prefix n (String b h) = true)
             by (apply prefix_iff; eauto).
           congruence.
        -- exists pre, post. congruence.
Qed.

Lemma str_in_empty (h : string) : str_in "" h = true.
Proof. destruct h; reflexivity. Qed.

Lemma slice_to_nonneg {A} (l : list A) (k : Z) :
  (0 <= k)%Z -> slice_to l k = firstn (Z.to_nat k) l.
Proof.
  intros H. unfold slice_to.
  destruct (Z.ltb_spec k 0); [lia | reflexivity].
Qed.

Lemma slice_to_neg {A} (l : list A) (k : Z) :
  (k < 0)%Z -> slice_to l k = firstn (List.length l - Z.to_nat (- k)) l.
Proof.
  intros H. unfold slice_to.
  destruct (Z.ltb_spec k 0); [|lia]. f_equal. lia.
Qed.

Lemma firstn_In {A} (n : nat) (l : list A) (x : A) :
  In x (firstn n l) -> In x l.
Proof.
  intros H. rewrite <- (firstn_skipn n l). apply in_or_app. now left.
Qed.

Lemma slice_to_incl {A} (l : list A) (k : Z) (x : A) :
  In x (slice_to l k) -> In x l.
Proof.
  unfold slice_to. destruct (k <? 0)%Z; apply firstn_In.
Qed.

Section SortFacts.
Context {A K : Type}.
Variable key : A -> K.
Variable lt : K -> K -> bool.

(** [a] may stand before [b] in a sorted list: [b]'s key is not
    smaller. *)
Definition ordered (a b : A) : Prop := lt (key b) (key a) = false.

Lemma insert_perm (x : A) (l : list A) :
  Permutation (insert key lt x l) (x :: l).
Proof.
  induction l as [|y l IH]; simpl; [reflexivity|].
  destruct (lt (key y) (key x)); [|reflexivity].
  rewrite IH. apply perm_swap.
Qed.

Lemma stable_sort_perm (l : list A) : Permutation (stable_sort key lt l) l.
Proof.
  induction l as [|x l IH]; simpl; [reflexivity|].
  rewrite insert_perm. now constructor.
Qed.

Lemma sort_perm (reverse : bool) (l : list A) :
  Permutation (sort key lt reverse l) l.
Proof.
  unfold sort. destruct reverse.
  - rewrite <- Permutation_rev, stable_sort_perm. symmetry.
    apply Permutation_rev.
  - apply stable_sort_perm.
Qed.

(** An item that may stand before the head of the list is put in
    front: equal keys keep their order. *)
Lemma insert_front (x : A) (l : list A) :
  HdRel ordered x l -> insert key lt x l = x :: l.
Proof.
  destruct 1 as [|y l H]; simpl; [reflexivity|].
  unfold ordered in H. now rewrite H.
Qed.

(** A list already in order is left as it is. *)
Lemma stable_sort_sorted_id (l : list A) :
  Sorted ordered l -> stable_sort key lt l = l.
Proof.
  induction 1 as [|x l Hs IH Hd]; simpl; [reflexivity|].
  rewrite IH. now apply insert_front.
Qed.

Hypothesis lt_asym : forall a b, lt a b = true -> lt b a = false.

Lemma insert_sorted (x : A) (l : list A) :
  Sorted ordered l -> Sorted ordered (insert key lt x l).
Proof.
  induction 1 as [|y l Hs IH Hd]; simpl.
  - repeat constructor.
  - destruct (lt (key y) (key x)) eqn:E.
    + constructor; [exact IH|].
      destruct Hd as [|z l Hyz]; simpl.
      * constructor. apply lt_asym, E.
      * destruct (lt (key z) (key x)); constructor;
          [exact Hyz | apply lt_asym, E].
    + repeat constructor; assumption.
Qed.

Lemma stable_sort_sorted (l : list A) : Sorted ordered (stable_sort key lt l).
Proof.
  induction l as [|x l IH]; simpl; [constructor | now apply insert_sorted].
Qed.

End SortFacts.

End PyFacts.

(* ================================================================= *)
(** ** The JSON codec *)

Module JsonFacts.
Import Json.

Lemma append_assoc (a b c : string) :
  ((a ++ b) ++ c = a ++ (b ++ c))%string.
Proof. induction a as [|x a IH]; simpl; [reflexivity | now rewrite IH]. Qed.

(** Decoding undoes the encoder's replacement of one character,
    whatever follows it. *)
Lemma scanstring_escape_char (c : ascii) (rest : string) :
  scanstring (escape_char c ++ rest) = cons_fst c (scanstring rest).
Proof.
  destruct c as [[] [] [] [] [] [] [] []]; reflexivity.
Qed.

(** The body of a string literal decodes to the text it encodes, up
    to the closing quote. *)
Lemma scanstring_escape (s rest : string) :
  scanstring (escape s ++ String dquote rest) = Some (s, rest).
Proof.
  induction s as [|c s IH]; [reflexivity|].
  cbn [escape]. rewrite append_assoc, scanstring_escape_char, IH.
  reflexivity.
Qed.

Lemma expect_app (lit s : string) : expect lit (lit ++ s) = Some s.
Proof.
  induction lit as [|c lit IH]; simpl; [reflexivity|].
  now rewrite Ascii.eqb_refl.
Qed.

(** The output of [json.dumps] as the decoder reads it: three string
    bodies, each after its key and before its closing quote. *)
Lemma json_dumps_shape (r c t : string) :
  json_dumps (Message r c t)
  = (member_open "{" "role" ++ escape r ++ String dquote
       (member_open ", " "content" ++ escape c ++ String dquote
          (member_open ", " "timestamp" ++ escape t ++ String dquote "}")))
    %string.
Proof.
  unfold json_dumps, member_open, quoted.
  cbn [msg_role msg_content msg_timestamp].
  repeat (rewrite ?append_assoc; cbn [String.append]).
  reflexivity.
Qed.

End JsonFacts.

(** [json.loads(json.dumps(m))] is [m], for every message. *)
Lemma json_loads_dumps (m : message) : json_loads (json_dumps m) = Some m.
Proof.
  destruct m as [r c t]. unfold json_loads.
  rewrite JsonFacts.json_dumps_shape.
  rewrite JsonFacts.expect_app, JsonFacts.scanstring_escape.
  rewrite JsonFacts.expect_app, JsonFacts.scanstring_escape.
  rewrite JsonFacts.expect_app, JsonFacts.scanstring_escape.
  reflexivity.
Qed.

(* ================================================================= *)
(** ** Timestamps: the text order is the chronological order *)

Module DatetimeFacts.

Lemma pow10_pos (w : nat) : (0 < pow10 w)%N.
Proof. induction w; cbn [pow10]; lia. Qed.

Lemma digit_compare (x y : N) :
  (x < 10)%N -> (y < 10)%N -> Ascii.compare (digit x) (digit y) = N.compare x y.
Proof.
  intros Hx Hy. unfold Ascii.compare, digit.
  rewrite !N_ascii_embedding by lia.
  destruct (N.compare_spec x y), (N.compare_spec (48 + x) (48 + y));
    try reflexivity; lia.
Qed.

(** A number below [10 * p] compares as its leading digit and then its
    remainder. *)
Lemma compare_split (p qa ra qb rb : N) :
  (ra < p)%N -> (rb < p)%N ->
  N.compare (ra + p * qa) (rb + p * qb)
  = lex (N.compare qa qb) (N.compare ra rb).
Proof.
  intros Ha Hb.
  destruct (N.compare_spec qa qb) as [->|H|H]; simpl.
  - destruct (N.compare_spec ra rb), (N.compare_spec (ra + p * qb) (rb + p * qb));
      try reflexivity; lia.
  - apply N.compare_lt_iff. nia.
  - apply N.compare_gt_iff. nia.
Qed.

(** Two numbers printed on the same width compare as the numbers do
    (as far as the width shows them), and as what follows when they
    are equal. *)
Lemma digits_compare (w : nat) (a b : N) (r1 r2 : string) :
  String.compare (digits w a ++ r1) (digits w b ++ r2)
  = lex (N.compare (a mod pow10 w) (b mod pow10 w)) (String.compare r1 r2).
Proof.
  induction w as [|w IH].
  - simpl. now rewrite !N.mod_1_r.
  - cbn [digits pow10 String.append String.compare].
    rewrite digit_compare by (apply N.mod_lt; lia).
    rewrite IH.
    rewrite (N.mul_comm 10 (pow10 w)), !N.Div0.mod_mul_r.
    pose proof (pow10_pos w) as Hp.
    rewrite compare_split by (apply N.mod_lt; lia).
    destruct (N.compare (a / pow10 w mod 10) (b / pow10 w mod 10));
      reflexivity.
Qed.

Lemma digits_compare_small (w : nat) (a b : N) (r1 r2 : string) :
  (a < pow10 w)%N -> (b < pow10 w)%N ->
  String.compare (digits w a ++ r1) (digits w b ++ r2)
  = lex (N.compare a b) (String.compare r1 r2).
Proof.
  intros Ha Hb. now rewrite digits_compare, !N.mod_small.
Qed.

Lemma append_empty_r (s : string) : (s ++ "")%string = s.
Proof. induction s as [|c s IH]; simpl; [reflexivity | now rewrite IH]. Qed.

(** The optional fraction of [isoformat] compares as the microsecond
    fields. *)
Lemma fraction_compare (a b : N) :
  (a < 1000000)%N -> (b < 1000000)%N ->
  String.compare
    (if N.eqb a 0 then EmptyString else "." ++ digits 6 a)
    (if N.eqb b 0 then EmptyString else "." ++ digits 6 b)
  = N.compare a b.
Proof.
  intros Ha Hb.
  destruct (N.eqb_spec a 0) as [->|Ha0], (N.eqb_spec b 0) as [->|Hb0].
  - reflexivity.
  - destruct b; [congruence | reflexivity].
  - destruct a; [congruence | reflexivity].
  - cbn [String.append String.compare].
    change (Ascii.compare "." ".") with Eq. cbv iota.
    rewrite <- (append_empty_r (digits 6 a)), <- (append_empty_r (digits 6 b)).
    rewrite digits_compare_small by (simpl; lia).
    simpl. destruct (N.compare a b); reflexivity.
Qed.

(** [isoformat] is an order embedding of the chronological order into
    the order of strings. *)
Lemma isoformat_compare (a b : datetime) :
  wf_datetime a -> wf_datetime b ->
  String.compare (isoformat a) (isoformat b) = datetime_compare a b.
Proof.
  intros Ha Hb. unfold wf_datetime in *. unfold isoformat, datetime_compare.
  repeat (rewrite digits_compare_small by (simpl; lia);
          cbn [String.append String.compare];
          try change (Ascii.compare "-" "-") with Eq;
          try change (Ascii.compare "T" "T") with Eq;
          try change (Ascii.compare ":" ":") with Eq;
          cbv iota).
  rewrite fraction_compare by lia.
  reflexivity.
Qed.

Lemma isoformat_mono (a b : datetime) :
  wf_datetime a -> wf_datetime b -> datetime_le a b ->
  String.leb (isoformat a) (isoformat b) = true.
Proof.
  intros Ha Hb Hle. unfold String.leb.
  rewrite isoformat_compare by assumption.
  unfold datetime_le in Hle. destruct (datetime_compare a b); congruence.
Qed.

End DatetimeFacts.

(* ================================================================= *)
(** ** The methods, one call at a time *)

Lemma decode_doc_of (cid : option string) (m : message) :
  decode (doc_of cid m) = m.
Proof. unfold decode, doc_of; simpl. now rewrite json_loads_dumps. Qed.

Lemma well_formed_doc_of (cid : option string) (m : message) :
  well_formed (doc_of cid m).
Proof. unfold well_formed, doc_of; simpl. now rewrite json_loads_dumps. Qed.

Section Calls.

Context {env : Env}.

Lemma start_new_conversation_eq (w : world) :
  start_new_conversation w
  = (Returns (strftime (clock (clock_reads w))),
     mkWorld (mkChatbot (model (self w)) (document_store (self w))
                        (Some (strftime (clock (clock_reads w)))) [])
             (S (clock_reads w)) (client_calls w) (stdout w) (trace w)).
Proof. reflexivity. Qed.

Lemma store_message_eq (role content : string) (w : world) :
  _store_message role content w
  = let m := Message role content (next_timestamp w) in
    let d := doc_of (current_conversation_id (self w)) m in
    (Returns tt,
     mkWorld (mkChatbot (model (self w)) (document_store (self w) ++ [d])
                        (current_conversation_id (self w))
                        (messages (self w) ++ [m]))
             (S (clock_reads w)) (client_calls w) (stdout w)
             (trace w ++ [Wrote d])).
Proof. reflexivity. Qed.

Lemma bind_run {A B} (m : M A) (k : A -> M B) (w : world) :
  bind m k w = match m w with
               | (Returns a, w') => k a w'
               | (Raises e, w') => (Raises e, w')
               end.
Proof. reflexivity. Qed.

Lemma ret_run {A} (a : A) (w : world) : ret a w = (Returns a, w).
Proof. reflexivity. Qed.

Lemma loads_decode (d : Document) :
  well_formed d -> json_loads (doc_content d) = Some (decode d).
Proof.
  unfold well_formed, decode.
  destruct (json_loads (doc_content d)); [reflexivity | congruence].
Qed.

Lemma scan_cons (query : string) (d : Document) (st : document_store_t) :
  scan query (d :: st)
  = if is_match query d
    then SearchResult (meta_conversation_id (doc_meta d)) (decode d) 1%float
         :: scan query st
    else scan query st.
Proof. unfold scan. simpl. now destruct (is_match query d). Qed.

(** Reading back well-formed documents never raises. *)
Lemma map_m_loads (docs : list Document) (w : world) :
  Forall well_formed docs ->
  map_m (fun doc => loads (doc_content doc)) docs w
  = (Returns (map decode docs), w).
Proof.
  induction 1 as [|d docs Hd Hds IH]; [reflexivity|].
  cbn [map_m map]. unfold bind at 1. unfold loads at 1, decode at 1.
  unfold well_formed in Hd.
  destruct (json_loads (doc_content d)) as [m|]; [|congruence].
  unfold ret at 1. unfold bind at 1. rewrite IH. reflexivity.
Qed.

Lemma chat_eq (user_input : string) (w : world) :
  chat user_input w
  = let w1 := stored "user" user_input (ensured w) in
    match completion user_input w1 with
    | Returns reply =>
        (Returns reply, stored "assistant" reply (asked user_input w1))
    | Raises e =>
        (Returns ("Error: " ++ str e)%string,
         printed ("Error communicating with Claude: " ++ str e)
                 (asked user_input w1))
    end.
Proof.
  unfold chat, ensured, completion, stored, started, asked, printed,
    try_except, bind, get_self.
  destruct (Py.truthy (current_conversation_id (self w)));
    cbn -[json_dumps isoformat strftime String.append];
    destruct (client _ _ _ _) as [r|e]; try reflexivity;
    destruct (content r) as [|b bs]; reflexivity.
Qed.

Lemma well_formed_filter (v : option (option string)) (st : document_store_t) :
  Forall well_formed st -> Forall well_formed (get_all_documents v st).
Proof.
  intros H. destruct v as [v|]; [|exact H]. simpl.
  apply Forall_forall. intros d Hd. apply filter_In in Hd as [Hd _].
  revert d Hd. now apply Forall_forall.
Qed.

(** With no conversation to look at, [get_conversation_history] returns
    the empty list at once: the store is not asked. *)
Lemma history_falsy (conversation_id : option string) (w : world) :
  Py.truthy (Py.or_else conversation_id (current_conversation_id (self w)))
  = false ->
  get_conversation_history conversation_id w = (Returns [], w).
Proof.
  intros H. unfold get_conversation_history, bind, get_self.
  now rewrite H.
Qed.

(** Otherwise it asks the store for the records of the conversation
    and returns their messages, sorted by timestamp. *)
Lemma history_truthy (conversation_id : option string) (id : string)
      (w : world) :
  Py.or_else conversation_id (current_conversation_id (self w)) = Some id ->
  Py.truthy (Some id) = true ->
  Forall well_formed (document_store (self w)) ->
  get_conversation_history conversation_id w
  = (Returns (Py.sort msg_timestamp String.ltb false
                (stored_messages id (document_store (self w)))),
     with_trace w (trace w ++ [Queried (Some (Some id))])).
Proof.
  intros Hid Ht Hwf. unfold get_conversation_history.
  unfold bind at 1, get_self at 1. rewrite Hid, Ht. cbn [negb].
  unfold bind at 1, store_get_all, bind at 1, get_self at 1, bind at 1,
    log at 1, ret at 1.
  cbn [self]. unfold bind at 1.
  rewrite map_m_loads by now apply (well_formed_filter (Some (Some id))).
  reflexivity.
Qed.

(** The loop of [search_conversations] appends the matches of the scan
    to what it already has. *)
Lemma search_loop (query : string) (docs : list Document)
      (acc : list search_result) (w : world) :
  Forall well_formed docs ->
  for_each docs
    (fun doc results =>
       message <- loads (doc_content doc) ;;
       if Py.str_in (Py.lower query) (Py.lower (msg_content message))
       then ret (results ++
                 [SearchResult
                    (meta_conversation_id (doc_meta doc)) message
                    (if Py.str_in (Py.lower query)
                                  (Py.lower (msg_content message))
                     then 1%float else 0%float)])
       else ret results) acc w
  = (Returns (acc ++ scan query docs), w).
Proof.
  intros H. revert acc. induction H as [|d docs Hd Hds IH]; intros acc.
  - unfold scan. simpl. now rewrite app_nil_r.
  - cbn [for_each]. rewrite !bind_run. unfold loads.
    rewrite (loads_decode d Hd), ret_run, scan_cons.
    change (Py.str_in (Py.lower query) (Py.lower (msg_content (decode d))))
      with (is_match query d).
    destruct (is_match query d).
    + now rewrite ret_run, IH, <- app_assoc.
    + now rewrite ret_run, IH.
Qed.

(** Every result of a scan has score [1.0]. *)
Lemma scan_score (query : string) (st : document_store_t) :
  Forall (fun r => sr_score r = 1%float) (scan query st).
Proof.
  unfold scan. apply Forall_forall. intros r Hr.
  apply in_map_iff in Hr as (d & <- & _). reflexivity.
Qed.

(** Sorting on equal scores changes nothing. *)
Lemma sort_equal_scores (l : list search_result) :
  Forall (fun r => sr_score r = 1%float) l ->
  Py.sort sr_score PrimFloat.ltb true l = l.
Proof.
  intros H. unfold Py.sort.
  rewrite PyFacts.stable_sort_sorted_id; [apply rev_involutive|].
  assert (Hr : Forall (fun r => sr_score r = 1%float) (rev l)).
  { apply Forall_forall. intros r Hr. apply in_rev in Hr.
    revert r Hr. now apply Forall_forall. }
  induction Hr as [|x xs Hx Hxs IH]; constructor; [exact IH|].
  destruct Hxs as [|y ys Hy _]; constructor.
  unfold PyFacts.ordered. now rewrite Hx, Hy.
Qed.

Lemma search_eq (query : string) (top_k : Z) (w : world) :
  Forall well_formed (document_store (self w)) ->
  search_conversations query top_k w
  = (Returns (Py.slice_to (scan query (document_store (self w))) top_k),
     with_trace w (trace w ++ [Queried None])).
Proof.
  intros Hwf. unfold search_conversations.
  unfold bind at 1, store_get_all, bind at 1, get_self at 1, bind at 1,
    log at 1, ret at 1.
  cbn [self get_all_documents]. unfold bind at 1.
  rewrite search_loop by exact Hwf. cbn [app].
  unfold ret. now rewrite sort_equal_scores by apply scan_score.
Qed.

(* ----------------------------------------------------------------- *)
(** *** What holds after any sequence of calls *)

Lemma store_at_mono (n m : nat) (st : document_store_t) :
  store_at n st -> n <= m -> store_at m st.
Proof.
  intros H Hnm. destruct H as [|n i st cid role content H Hi];
    [constructor | econstructor; [eassumption | lia]].
Qed.

Lemma store_at_well_formed (n : nat) (st : document_store_t) :
  store_at n st -> Forall well_formed st.
Proof.
  induction 1 as [|n i st cid role content H IH Hi]; [constructor|].
  apply Forall_app. split; [exact IH|].
  constructor; [apply well_formed_doc_of | constructor].
Qed.

Lemma truthy_strftime (d : datetime) : Py.truthy (Some (strftime d)) = true.
Proof. reflexivity. Qed.

Lemma truthy_some (x : option string) :
  Py.truthy x = true -> exists id, x = Some id.
Proof. destruct x as [id|]; [eauto | discriminate]. Qed.

Lemma inv_init : inv init.
Proof. split; simpl; [constructor | now left]. Qed.

Lemma inv_started (w : world) : inv w -> inv (started w).
Proof.
  intros [Hs Hc]. unfold started. rewrite start_new_conversation_eq.
  split; cbn [snd self clock_reads document_store current_conversation_id].
  - apply (store_at_mono _ _ _ Hs). lia.
  - right. apply truthy_strftime.
Qed.

Lemma inv_stored (role content : string) (w : world) :
  inv w -> inv (stored role content w).
Proof.
  intros [Hs Hc]. unfold stored. rewrite store_message_eq. cbv zeta.
  split; cbn [snd self clock_reads document_store current_conversation_id].
  - econstructor; [exact Hs | lia].
  - exact Hc.
Qed.

Lemma inv_ensured (w : world) : inv w -> inv (ensured w).
Proof.
  intros H. unfold ensured.
  destruct (Py.truthy _); [exact H | now apply inv_started].
Qed.

Lemma inv_asked (user_input : string) (w : world) :
  inv w -> inv (asked user_input w).
Proof. intros [Hs Hc]. split; assumption. Qed.

Lemma inv_printed (line : string) (w : world) : inv w -> inv (printed line w).
Proof. intros [Hs Hc]. split; assumption. Qed.

Lemma inv_with_trace (w : world) (t : list event) :
  inv w -> inv (with_trace w t).
Proof. intros [Hs Hc]. split; assumption. Qed.

Lemma inv_well_formed (w : world) :
  inv w -> Forall well_formed (document_store (self w)).
Proof. intros [Hs _]. now apply store_at_well_formed in Hs. Qed.

Lemma inv_chat (user_input : string) (w : world) :
  inv w -> inv (snd (chat user_input w)).
Proof.
  intros H. rewrite chat_eq. cbv zeta.
  destruct (completion _ _); cbn [snd];
    auto using inv_stored, inv_asked, inv_printed, inv_ensured.
Qed.

Lemma inv_history (conversation_id : option string) (w : world) :
  inv w -> inv (snd (get_conversation_history conversation_id w)).
Proof.
  intros H.
  destruct (Py.truthy (Py.or_else conversation_id
                         (current_conversation_id (self w)))) eqn:E.
  - destruct (truthy_some _ E) as [id Hid].
    rewrite (history_truthy _ id) by
      (try rewrite <- Hid; auto using inv_well_formed).
    now apply inv_with_trace.
  - now rewrite history_falsy.
Qed.

Lemma inv_search (query : string) (top_k : Z) (w : world) :
  inv w -> inv (snd (search_conversations query top_k w)).
Proof.
  intros H. rewrite search_eq by now apply inv_well_formed.
  now apply inv_with_trace.
Qed.

Lemma inv_exec (c : call) (w : world) : inv w -> inv (exec c w).
Proof.
  destruct c; cbn [exec];
    auto using inv_chat, inv_history, inv_search.
  - apply inv_started.
  - apply inv_stored.
Qed.

Lemma inv_run (calls : list call) (w : world) : inv w -> inv (run calls w).
Proof.
  revert w. induction calls as [|c calls IH]; intros w H; [exact H|].
  cbn [run fold_left]. apply IH, inv_exec, H.
Qed.

Lemma inv_reachable (calls : list call) : inv (run calls init).
Proof. apply inv_run, inv_init. Qed.

(* ----------------------------------------------------------------- *)
(** *** Frame facts *)

Lemma stored_eq (role content : string) (w : world) :
  stored role content w
  = mkWorld (mkChatbot (model (self w))
               (document_store (self w)
                ++ [doc_of (current_conversation_id (self w))
                           (Message role content (next_timestamp w))])
               (current_conversation_id (self w))
               (messages (self w)
                ++ [Message role content (next_timestamp w)]))
            (S (clock_reads w)) (client_calls w) (stdout w)
            (trace w
             ++ [Wrote (doc_of (current_conversation_id (self w))
                               (Message role content (next_timestamp w)))]).
Proof. reflexivity. Qed.

Lemma or_else_truthy (a b : option string) :
  Py.truthy a = true -> Py.or_else a b = a.
Proof. unfold Py.or_else. now intros ->. Qed.

Lemma or_else_falsy (a b : option string) :
  Py.truthy a = false -> Py.or_else a b = b.
Proof. unfold Py.or_else. now intros ->. Qed.

Lemma matches_filter_same (cid : string) (m : message) :
  matches_filter (Some cid) (doc_of (Some cid) m) = true.
Proof. simpl. apply String.eqb_refl. Qed.

Lemma stored_messages_snoc_same (cid : string) (st : document_store_t)
      (m : message) :
  stored_messages cid (st ++ [doc_of (Some cid) m])
  = stored_messages cid st ++ [m].
Proof.
  unfold stored_messages. cbn [get_all_documents].
  rewrite filter_app. cbn [filter]. rewrite matches_filter_same.
  rewrite map_app. cbn [map]. now rewrite decode_doc_of.
Qed.

(** Starting a conversation when there is none leaves the store, the
    requests made and the model as they are, and there is a
    conversation afterwards. *)
Lemma ensured_frame (w : world) :
  document_store (self (ensured w)) = document_store (self w)
  /\ trace (ensured w) = trace w
  /\ client_calls (ensured w) = client_calls w
  /\ model (self (ensured w)) = model (self w)
  /\ stdout (ensured w) = stdout w.
Proof.
  unfold ensured. destruct (Py.truthy _); repeat split; reflexivity.
Qed.

Lemma ensured_cid (w : world) :
  exists cid, current_conversation_id (self (ensured w)) = Some cid
              /\ Py.truthy (Some cid) = true.
Proof.
  unfold ensured.
  destruct (Py.truthy (current_conversation_id (self w))) eqn:E.
  - destruct (truthy_some _ E) as [cid Hc]. exists cid. now rewrite <- Hc.
  - eexists. split; [reflexivity | apply truthy_strftime].
Qed.

Lemma ensured_active (w : world) (cid : string) :
  current_conversation_id (self w) = Some cid -> Py.truthy (Some cid) = true ->
  ensured w = w.
Proof. intros H Ht. unfold ensured. now rewrite H, Ht. Qed.

(** The history of a conversation after one more message of it was
    stored: the earlier history and the new message, in some order. *)
Lemma history_snoc (cid : string) (st : document_store_t) (m : message) :
  Permutation
    (Py.sort msg_timestamp String.ltb false
       (stored_messages cid (st ++ [doc_of (Some cid) m])))
    (Py.sort msg_timestamp String.ltb false (stored_messages cid st) ++ [m]).
Proof.
  rewrite stored_messages_snoc_same, !PyFacts.sort_perm. reflexivity.
Qed.

End Calls.

(* ================================================================= *)
(** ** The order of timestamps *)

Module StringOrder.

Lemma ltb_asym (a b : string) : String.ltb a b = true -> String.ltb b a = false.
Proof.
  unfold String.ltb. rewrite (String.compare_antisym b a).
  destruct (String.compare a b); simpl; congruence.
Qed.

Lemma not_ltb_le (a b : string) : String.ltb b a = false <-> string_le a b.
Proof.
  unfold string_le, String.ltb, String.leb. rewrite (String.compare_antisym b a).
  destruct (String.compare a b); simpl; split; congruence.
Qed.

Lemma compare_trans_le (a b c : string) :
  String.compare a b <> Gt -> String.compare b c <> Gt ->
  String.compare a c <> Gt.
Proof.
  revert b c. induction a as [|x a IH]; intros [|y b] [|z c]; simpl;
    try congruence.
  unfold Ascii.compare.
  destruct (N.compare_spec (N_of_ascii x) (N_of_ascii y)) as [Exy|Lxy|Gxy];
    destruct (N.compare_spec (N_of_ascii y) (N_of_ascii z)) as [Eyz|Lyz|Gyz];
    destruct (N.compare_spec (N_of_ascii x) (N_of_ascii z)) as [Exz|Lxz|Gxz];
    try congruence; try lia.
  apply IH.
Qed.

Lemma le_trans (a b c : string) :
  string_le a b -> string_le b c -> string_le a c.
Proof.
  unfold string_le, String.leb. intros Hab Hbc.
  pose proof (compare_trans_le a b c) as H.
  destruct (String.compare a b), (String.compare b c), (String.compare a c);
    try reflexivity; try discriminate; exfalso; apply H; congruence.
Qed.

Lemma le_refl (a : string) : string_le a a.
Proof.
  unfold string_le, String.leb.
  pose proof (String.compare_antisym a a) as H.
  destruct (String.compare a a); simpl in H; congruence.
Qed.

End StringOrder.

Lemma not_later_trans (a b c : message) :
  not_later a b -> not_later b c -> not_later a c.
Proof. apply StringOrder.le_trans. Qed.

Lemma StronglySorted_snoc {A} (R : A -> A -> Prop) (l : list A) (x : A) :
  StronglySorted R l -> Forall (fun y => R y x) l -> StronglySorted R (l ++ [x]).
Proof.
  induction 1 as [|y l Hs IH Hy]; intros Hx; simpl.
  - repeat constructor.
  - inversion Hx; subst. constructor; [now apply IH|].
    apply Forall_app. split; [exact Hy | now constructor].
Qed.

Lemma StronglySorted_filter {A} (R : A -> A -> Prop) (f : A -> bool)
      (l : list A) :
  StronglySorted R l -> StronglySorted R (filter f l).
Proof.
  induction 1 as [|y l Hs IH Hy]; simpl; [constructor|].
  destruct (f y); [|exact IH]. constructor; [exact IH|].
  apply Forall_forall. intros z Hz. apply filter_In in Hz as [Hz _].
  revert z Hz. now apply Forall_forall.
Qed.

Lemma StronglySorted_map {A B} (R : B -> B -> Prop) (g : A -> B)
      (l : list A) :
  StronglySorted (fun a b => R (g a) (g b)) l -> StronglySorted R (map g l).
Proof.
  induction 1 as [|y l Hs IH Hy]; simpl; constructor; [exact IH|].
  apply Forall_forall. intros z Hz. apply in_map_iff in Hz as (a & <- & Ha).
  revert a Ha. now apply Forall_forall.
Qed.

(** [sort] by timestamp puts the messages in non-decreasing order of
    their timestamps. *)
Lemma sort_by_timestamp_sorted (l : list message) :
  StronglySorted not_later (Py.sort msg_timestamp String.ltb false l).
Proof.
  apply Sorted_StronglySorted; [exact not_later_trans|].
  unfold Py.sort.
  eapply Sorted_ind with (P := fun l => Sorted not_later l);
    [constructor | | apply (PyFacts.stable_sort_sorted msg_timestamp String.ltb
                               StringOrder.ltb_asym)].
  intros a l0 _ IH Hd. constructor; [exact IH|].
  destruct Hd as [|b l0 Hab]; constructor.
  now apply StringOrder.not_ltb_le.
Qed.

(** Messages already in order come back as they are. *)
Lemma sort_by_timestamp_id (l : list message) :
  StronglySorted not_later l ->
  Py.sort msg_timestamp String.ltb false l = l.
Proof.
  intros H. unfold Py.sort. apply PyFacts.stable_sort_sorted_id.
  apply StronglySorted_Sorted in H.
  induction H as [|a l Hs IH Hd]; constructor; [exact IH|].
  destruct Hd as [|b l Hab]; constructor.
  now apply StringOrder.not_ltb_le.
Qed.

Lemma Returns_eq {A} (a b : A) : Returns a = Returns b -> a = b.
Proof. intros H. now injection H. Qed.

(* ================================================================= *)
(** ** The session manager *)

Section Session.

Context {env : Env}.

(** C1: when the completion service raises during [chat], the call
    returns normally with the reply ["Error: " ++ str(e)]; the store
    gains the user message and nothing else (the only requests are the
    write of the user document and the call of the service), and the
    history of the conversation is its earlier history and the user
    message: one entry more. *)
Theorem chat_error_reply (calls : list call) (user_input : string) (e : exn) :
  let w := run calls init in
  client (client_calls w) (model (self w)) user_input 1024 = Raises e ->
  exists (cid : string) (w' : world),
    let m := Message "user" user_input (next_timestamp (ensured w)) in
    let d := doc_of (Some cid) m in
    chat user_input w = (Returns ("Error: " ++ str e)%string, w')
    /\ String.prefix "Error: " ("Error: " ++ str e) = true
    /\ current_conversation_id (self w') = Some cid
    /\ document_store (self w') = document_store (self w) ++ [d]
    /\ trace w' = trace w ++ [Wrote d; Asked (model (self w)) user_input 1024]
    /\ exists h h',
         fst (get_conversation_history (Some cid) w) = Returns h
         /\ fst (get_conversation_history None w') = Returns h'
         /\ Permutation h' (h ++ [m])
         /\ List.length h' = S (List.length h).
Proof.
  intros w Hc.
  pose proof (inv_reachable calls) as Hinv. fold w in Hinv.
  destruct (ensured_cid w) as (cid & Hcid & Ht).
  destruct (ensured_frame w) as (Hst & Htr & Hcc & Hmo & _).
  exists cid. eexists. cbv zeta.
  assert (Hcomp : completion user_input (stored "user" user_input (ensured w))
                  = Raises e).
  { unfold completion, stored. rewrite store_message_eq. cbv zeta.
    cbn [snd self client_calls model]. now rewrite Hcc, Hmo, Hc. }
  split.
  { rewrite chat_eq. cbv zeta. rewrite Hcomp. reflexivity. }
  unfold stored. rewrite store_message_eq. cbv zeta.
  cbn [snd asked printed self document_store current_conversation_id trace
       clock_reads client_calls stdout model].
  rewrite Hcid, Hst, Htr, Hmo.
  split; [apply PyFacts.prefix_iff; now exists (str e)|].
  split; [reflexivity|]. split; [reflexivity|].
  split; [now rewrite <- app_assoc|].
  pose proof (inv_well_formed w Hinv) as Hwf.
  do 2 eexists. split; [|split].
  - rewrite (history_truthy (Some cid) cid w); try assumption; [reflexivity|].
    now apply or_else_truthy.
  - rewrite (history_truthy None cid); try assumption.
    + cbn [fst self document_store]. reflexivity.
    + cbn [self current_conversation_id]. apply or_else_falsy. reflexivity.
    + cbn [self document_store]. apply Forall_app. split; [exact Hwf|].
      constructor; [apply well_formed_doc_of | constructor].
  - split; [apply history_snoc|].
    cbn [printed asked self document_store].
    rewrite (Permutation_length (history_snoc _ _ _)), length_app. simpl. lia.
Qed.

Lemma stored_messages_fresh (cid : string) (st : document_store_t) :
  (forall d, In d st -> meta_conversation_id (doc_meta d) <> Some cid) <->
  stored_messages cid st = [].
Proof.
  unfold stored_messages. cbn [get_all_documents].
  induction st as [|d st IH]; simpl.
  - split; [reflexivity | intros _ d []].
  - unfold matches_filter at 1.
    destruct (meta_conversation_id (doc_meta d)) as [c|] eqn:E.
    + destruct (String.eqb_spec c cid) as [->|Hne]; simpl.
      * split; [|discriminate]. intros H. exfalso.
        apply (H d); [now left | exact E].
      * rewrite <- IH. split.
        -- intros H d' Hd'. apply H. now right.
        -- intros H d' [<-|Hd']; [congruence | now apply H].
    + rewrite <- IH. split.
      * intros H d' Hd'. apply H. now right.
      * intros H d' [<-|Hd']; [congruence | now apply H].
Qed.

(** C4, as amended: [start_new_conversation] always empties the
    message buffer of the object, and [get_conversation_history()]
    called next returns the empty list exactly when no stored record
    carries the identifier just generated. *)
Theorem start_then_history (calls : list call) :
  let w := run calls init in
  let cid := strftime (clock (clock_reads w)) in
  messages (self (snd (start_new_conversation w))) = []
  /\ (fst ((start_new_conversation ;; get_conversation_history None) w)
      = Returns []
      <-> forall d, In d (document_store (self w)) ->
                    meta_conversation_id (doc_meta d) <> Some cid).
Proof.
  intros w cid. split; [reflexivity|].
  rewrite bind_run, start_new_conversation_eq. fold cid.
  rewrite (history_truthy None cid);
    [ | reflexivity | apply truthy_strftime
      | apply (inv_well_formed w), inv_reachable ].
  cbn [fst self document_store]. rewrite stored_messages_fresh.
  split.
  - intros H. injection H as H.
    apply Permutation_nil. rewrite <- H.
    apply (PyFacts.sort_perm msg_timestamp String.ltb false).
  - intros ->. reflexivity.
Qed.

(** C5: a message stored by [_store_message] while a conversation is
    active is among the history of that conversation, with its role
    and content as they were given: what [json.loads] reads from the
    document is what [json.dumps] was given. *)
Theorem store_then_history (calls : list call) (role content cid : string) :
  let w := run calls init in
  let m := Message role content (next_timestamp w) in
  current_conversation_id (self w) = Some cid ->
  exists h w',
    (_store_message role content ;; get_conversation_history (Some cid)) w
    = (Returns h, w')
    /\ In m h
    /\ In (doc_of (Some cid) m) (document_store (self w'))
    /\ json_loads (json_dumps m) = Some m.
Proof.
  intros w m Hcid.
  pose proof (inv_reachable calls) as Hinv. fold w in Hinv.
  assert (Ht : Py.truthy (Some cid) = true).
  { destruct (inv_cid w Hinv) as [H|H]; rewrite Hcid in H;
      [discriminate | exact H]. }
  do 2 eexists. rewrite bind_run, store_message_eq. cbv beta iota zeta.
  rewrite (history_truthy (Some cid) cid);
    [ | now apply or_else_truthy | exact Ht
      | apply (inv_well_formed _ (inv_stored role content w Hinv)) ].
  cbn [self document_store]. rewrite Hcid.
  split; [reflexivity|]. split; [|split].
  - apply (Permutation_in m (Permutation_sym (history_snoc _ _ _))).
    apply in_or_app. right. now left.
  - cbn [with_trace self document_store]. apply in_or_app. right. now left.
  - apply json_loads_dumps.
Qed.

(** The timestamps in the store are those of earlier clock readings. *)
Lemma store_at_bound (n : nat) (st : document_store_t) :
  store_at n st ->
  Forall (fun d => exists i, i < n
                     /\ msg_timestamp (decode d) = isoformat (clock i)) st.
Proof.
  induction 1 as [|n i st cid role content H IH Hi]; [constructor|].
  apply Forall_app. split.
  - apply Forall_forall. intros d Hd.
    destruct (proj1 (Forall_forall _ _) IH d Hd) as (j & Hj & E).
    exists j. split; [lia | exact E].
  - constructor; [|constructor]. exists i. rewrite decode_doc_of.
    split; [exact Hi | reflexivity].
Qed.

(** When the clock never runs backwards, the records are stored in the
    order of their timestamps. *)
Lemma store_at_sorted (n : nat) (st : document_store_t) :
  (forall i j, i <= j -> datetime_le (clock i) (clock j)) ->
  store_at n st ->
  StronglySorted (fun a b => not_later (decode a) (decode b)) st.
Proof.
  intros Hmono.
  induction 1 as [|n i st cid role content H IH Hi]; [constructor|].
  apply StronglySorted_snoc; [exact IH|].
  apply Forall_forall. intros d Hd.
  destruct (proj1 (Forall_forall _ _) (store_at_bound _ _ H) d Hd)
    as (j & Hj & E).
  unfold not_later, string_le. rewrite E, decode_doc_of.
  cbn [msg_timestamp].
  apply DatetimeFacts.isoformat_mono; try apply clock_valid.
  apply Hmono. lia.
Qed.

(** C7: [get_conversation_history] returns its messages in
    non-decreasing order of their timestamps; and when the clock does
    not run backwards, the records of a conversation are already in
    that order in the store. *)
Theorem history_sorted_by_timestamp (calls : list call)
        (conversation_id : option string) :
  let w := run calls init in
  (exists h w',
     get_conversation_history conversation_id w = (Returns h, w')
     /\ StronglySorted not_later h)
  /\ ((forall i j, i <= j -> datetime_le (clock i) (clock j)) ->
      forall cid,
        StronglySorted not_later
          (stored_messages cid (document_store (self w)))).
Proof.
  intros w.
  pose proof (inv_reachable calls) as Hinv. fold w in Hinv.
  split.
  - destruct (Py.truthy (Py.or_else conversation_id
                           (current_conversation_id (self w)))) eqn:E.
    + destruct (truthy_some _ E) as [id Hid].
      do 2 eexists. rewrite (history_truthy _ id);
        [ | exact Hid | now rewrite <- Hid | now apply inv_well_formed ].
      split; [reflexivity | apply sort_by_timestamp_sorted].
    + do 2 eexists. rewrite history_falsy by exact E.
      split; [reflexivity | constructor].
  - intros Hmono cid. unfold stored_messages.
    apply StronglySorted_map, StronglySorted_filter.
    eapply store_at_sorted; eauto using inv_store.
Qed.

(** C10, as amended: [get_conversation_history("")] is
    [get_conversation_history()]: the empty identifier is falsy, so the
    store is never asked for the records tagged with it.  With no
    active conversation the empty list is returned at once, without
    asking the store; with one, the store is asked for the records of
    the active conversation and their sorted messages are returned,
    which is the empty list exactly when no stored record carries the
    identifier of the active conversation. *)
Theorem history_of_empty_id (calls : list call) :
  let w := run calls init in
  get_conversation_history (Some "") w = get_conversation_history None w
  /\ match current_conversation_id (self w) with
     | None => get_conversation_history (Some "") w = (Returns [], w)
     | Some cid =>
         cid <> ""
         /\ get_conversation_history (Some "") w
            = (Returns (Py.sort msg_timestamp String.ltb false
                          (stored_messages cid (document_store (self w)))),
               with_trace w (trace w ++ [Queried (Some (Some cid))]))
         /\ (fst (get_conversation_history (Some "") w) = Returns []
             <-> forall d, In d (document_store (self w)) ->
                           meta_conversation_id (doc_meta d) <> Some cid)
     end.
Proof.
  intros w.
  pose proof (inv_reachable calls) as Hinv. fold w in Hinv.
  split; [reflexivity|].
  destruct (current_conversation_id (self w)) as [cid|] eqn:Hcid.
  - assert (Ht : Py.truthy (Some cid) = true).
    { destruct (inv_cid w Hinv) as [H|H]; rewrite Hcid in H;
        [discriminate | exact H]. }
    assert (He : get_conversation_history (Some "") w
                 = (Returns (Py.sort msg_timestamp String.ltb false
                               (stored_messages cid
                                  (document_store (self w)))),
                    with_trace w (trace w ++ [Queried (Some (Some cid))]))).
    { apply history_truthy;
        [now rewrite Hcid | exact Ht | now apply inv_well_formed]. }
    split; [intros ->; discriminate|]. split; [exact He|].
    rewrite He. cbn [fst]. rewrite stored_messages_fresh. split.
    + intros H. apply Returns_eq in H.
      apply Permutation_nil. rewrite <- H.
      apply (PyFacts.sort_perm msg_timestamp String.ltb false).
    + intros ->. reflexivity.
  - apply history_falsy. now rewrite Hcid.
Qed.

(** C6, as amended: in a conversation just started, when no stored
    record carries its identifier and the clock does not run backwards
    between the two readings, [chat("Hello")] answered ["Hi there"] by
    the service leaves a history of exactly the user message and then
    the assistant message, the first with a timestamp not later than
    the second's; the user document is written before the service is
    called. *)
Theorem hello_exchange (calls : list call) (more : list content_block) :
  let w := run calls init in
  let cid := strftime (clock (clock_reads w)) in
  let t1 := clock (S (clock_reads w)) in
  let t2 := clock (S (S (clock_reads w))) in
  let m1 := Message "user" "Hello" (isoformat t1) in
  let m2 := Message "assistant" "Hi there" (isoformat t2) in
  (forall d, In d (document_store (self w)) ->
             meta_conversation_id (doc_meta d) <> Some cid) ->
  client (client_calls w) (model (self w)) "Hello" 1024
  = Returns (Response (TextBlock "Hi there" :: more)) ->
  datetime_le t1 t2 ->
  exists w',
    (start_new_conversation ;;
     reply <- chat "Hello" ;;
     history <- get_conversation_history None ;;
     ret (reply, history)) w
    = (Returns ("Hi there", [m1; m2]), w')
    /\ string_le (msg_timestamp m1) (msg_timestamp m2)
    /\ trace w' = trace w ++ [Wrote (doc_of (Some cid) m1);
                              Asked (model (self w)) "Hello" 1024;
                              Wrote (doc_of (Some cid) m2);
                              Queried (Some (Some cid))].
Proof.
  intros w cid t1 t2 m1 m2 Hfresh Hclient Hle.
  pose proof (inv_reachable calls) as Hinv. fold w in Hinv.
  assert (Hts : string_le (isoformat t1) (isoformat t2))
    by (apply DatetimeFacts.isoformat_mono; try apply clock_valid;
        exact Hle).
  clearbody w.
  eexists. rewrite bind_run, start_new_conversation_eq. fold cid.
  cbv beta iota. rewrite bind_run, chat_eq. cbv zeta.
  rewrite (ensured_active _ cid) by (try reflexivity; apply truthy_strftime).
  rewrite stored_eq.
  cbn [self model document_store current_conversation_id messages
       clock_reads client_calls stdout trace next_timestamp].
  unfold completion. cbn [self model client_calls].
  rewrite Hclient. cbn [content text]. unfold asked. rewrite stored_eq.
  cbn [self model document_store current_conversation_id messages
       clock_reads client_calls stdout trace next_timestamp].
  fold t1 t2 m1 m2. rewrite bind_run.
  rewrite (history_truthy None cid);
    [ | reflexivity | apply truthy_strftime | ].
  - cbn [self document_store trace with_trace].
    rewrite !stored_messages_snoc_same.
    rewrite (proj1 (stored_messages_fresh cid _) Hfresh). cbn [app].
    rewrite sort_by_timestamp_id.
    + rewrite ret_run. split; [reflexivity|]. split; [exact Hts|].
      cbn [trace]. now rewrite <- !app_assoc.
    + repeat constructor. exact Hts.
  - cbn [self document_store]. rewrite !Forall_app.
    repeat split; try (constructor; [apply well_formed_doc_of|constructor]).
    now apply inv_well_formed.
Qed.

End Session.

(* ================================================================= *)
(** ** History store and search *)

Section Search.

Context {env : Env}.

Lemma length_slice_to_nonneg {A} (l : list A) (k : Z) :
  (0 <= k)%Z ->
  List.length (Py.slice_to l k) = Nat.min (Z.to_nat k) (List.length l).
Proof. intros H. now rewrite PyFacts.slice_to_nonneg, length_firstn. Qed.

Lemma is_match_iff (query : string) (d : Document) :
  is_match query d = true
  <-> exists pre post,
        Py.lower (msg_content (decode d))
        = (pre ++ Py.lower query ++ post)%string.
Proof. apply PyFacts.str_in_iff. Qed.

Lemma scan_matches (query : string) (st : document_store_t) :
  Forall (fun r => exists pre post,
              Py.lower (msg_content (sr_message r))
              = (pre ++ Py.lower query ++ post)%string)
         (scan query st).
Proof.
  unfold scan. apply Forall_forall. intros r Hr.
  apply in_map_iff in Hr as (d & <- & Hd).
  apply filter_In in Hd as [_ Hd]. now apply is_match_iff.
Qed.

Lemma scan_empty_query (st : document_store_t) :
  List.length (scan "" st) = List.length st.
Proof.
  unfold scan. rewrite length_map. induction st as [|d st IH]; simpl.
  - reflexivity.
  - unfold is_match at 1. cbn [Py.lower]. rewrite PyFacts.str_in_empty.
    simpl. now rewrite IH.
Qed.

Lemma float_one_not_zero : 1%float <> 0%float.
Proof.
  intros H.
  assert (E : PrimFloat.eqb 1%float 1%float = PrimFloat.eqb 0%float 1%float)
    by now rewrite H.
  vm_compute in E. discriminate.
Qed.

(** C3: with a positive limit [k], [search_conversations] returns at
    most [k] entries, and the content of the message of each contains
    the query when both are put in lower case. *)
Theorem search_at_most_k (calls : list call) (query : string) (k : Z) :
  (0 < k)%Z ->
  exists results,
    fst (search_conversations query k (run calls init)) = Returns results
    /\ (Z.of_nat (List.length results) <= k)%Z
    /\ Forall (fun r => exists pre post,
                   Py.lower (msg_content (sr_message r))
                   = (pre ++ Py.lower query ++ post)%string)
              results.
Proof.
  intros Hk. eexists.
  rewrite search_eq by apply inv_well_formed, inv_reachable.
  cbn [fst]. split; [reflexivity|]. split.
  - rewrite length_slice_to_nonneg by lia. lia.
  - apply Forall_forall. intros r Hr. apply PyFacts.slice_to_incl in Hr.
    revert r Hr. apply Forall_forall, scan_matches.
Qed.

(** C8: every entry [search_conversations] returns has score [1.0],
    none has score [0.0]; the sort by score changes nothing, so the
    entries are the matches in the order of the scan of the store, cut
    to the limit. *)
Theorem search_scores_and_order (calls : list call) (query : string) (k : Z) :
  let store := document_store (self (run calls init)) in
  exists results,
    fst (search_conversations query k (run calls init)) = Returns results
    /\ Forall (fun r => sr_score r = 1%float) results
    /\ Forall (fun r => sr_score r <> 0%float) results
    /\ Py.sort sr_score PrimFloat.ltb true (scan query store)
       = scan query store
    /\ results = Py.slice_to (scan query store) k.
Proof.
  intros store. eexists.
  rewrite search_eq by apply inv_well_formed, inv_reachable.
  cbn [fst]. fold store.
  assert (H1 : Forall (fun r => sr_score r = 1%float)
                      (Py.slice_to (scan query store) k)).
  { apply Forall_forall. intros r Hr. apply PyFacts.slice_to_incl in Hr.
    revert r Hr. apply Forall_forall, scan_score. }
  split; [reflexivity|]. split; [exact H1|]. split; [|split].
  - apply Forall_forall. intros r Hr.
    rewrite (proj1 (Forall_forall _ _) H1 r Hr). apply float_one_not_zero.
  - apply sort_equal_scores, scan_score.
  - reflexivity.
Qed.

(** C9: the empty query matches every stored message: with the default
    limit, [search_conversations("")] returns [min(n, 5)] entries when
    [n] messages are stored. *)
Theorem search_empty_query (calls : list call) :
  let store := document_store (self (run calls init)) in
  exists results,
    fst (search_conversations "" default_top_k (run calls init))
    = Returns results
    /\ List.length results = Nat.min (List.length store) 5
    /\ List.length (scan "" store) = List.length store.
Proof.
  intros store. eexists.
  rewrite search_eq by apply inv_well_formed, inv_reachable.
  cbn [fst]. fold store. split; [reflexivity|].
  split; [|apply scan_empty_query].
  rewrite length_slice_to_nonneg by (unfold default_top_k; lia).
  rewrite scan_empty_query. unfold default_top_k.
  change (Z.to_nat 5) with 5. apply Nat.min_comm.
Qed.

(** C2, as amended: with limit [0], [search_conversations] returns the
    empty list; with a negative limit [k] it returns the matches of the
    scan without the last [-k] of them, which is the empty list exactly
    when at most [-k] stored messages match. *)
Theorem search_nonpositive_limit (calls : list call) (query : string) (k : Z) :
  let matches := scan query (document_store (self (run calls init))) in
  (k <= 0)%Z ->
  exists results,
    fst (search_conversations query k (run calls init)) = Returns results
    /\ (k = 0%Z -> results = [])
    /\ ((k < 0)%Z ->
        results = firstn (List.length matches - Z.to_nat (- k)) matches
        /\ (results = [] <-> List.length matches <= Z.to_nat (- k))).
Proof.
  intros matches Hk. eexists.
  rewrite search_eq by apply inv_well_formed, inv_reachable.
  cbn [fst]. fold matches. split; [reflexivity|]. split.
  - intros ->. reflexivity.
  - intros Hneg. rewrite PyFacts.slice_to_neg by exact Hneg.
    split; [reflexivity|]. split.
    + intros H. apply (f_equal (@List.length _)) in H.
      rewrite length_firstn in H. simpl in H. lia.
    + intros H.
      replace (List.length matches - Z.to_nat (- k)) with 0 by lia.
      reflexivity.
Qed.

End Search.
(* ================================================================= *)
(** ** Sample runs *)

(** The slow clock never runs backwards. *)
Lemma slow_clock_mono (i j : nat) :
  i <= j -> datetime_le (slow_clock i) (slow_clock j).
Proof.
  intros H. unfold datetime_le, datetime_compare, slow_clock; simpl.
  destruct (N.compare_spec (N.min (N.of_nat i) 59) (N.min (N.of_nat j) 59));
    simpl; try discriminate. lia.
Qed.

(** C1 at work: the service cannot be reached, and [chat("x")] on a
    new object returns the error text. *)
Lemma chat_error_reply_witness :
  client (Env := offline) 0 MODEL_NAME "x" 1024
  = Raises (Exception "Connection error.")
  /\ fst (chat (env := offline) "x" init)
     = Returns "Error: Connection error.".
Proof.
  split; [reflexivity|].
  destruct (chat_error_reply (env := offline) [] "x"
              (Exception "Connection error.") eq_refl)
    as (cid & w' & H & _).
  exact (f_equal fst H).
Defined.

(** C2 fails as stated: after one exchange both stored messages match
    ["h"], and the limit [-1] drops only the last of them. *)
Lemma search_negative_limit_nonempty :
  (-1 <= 0)%Z
  /\ fst (search_conversations "h" (-1)
            (run (env := steady) [Chat "Hello"] init))
     = Returns
         [SearchResult (Some "20240101_120000")
            (Message "user" "Hello" "2024-01-01T12:00:01") 1%float]
  /\ fst (search_conversations "h" (-1)
            (run (env := steady) [Chat "Hello"] init))
     <> Returns [].
Proof.
  split; [lia|]. split; [vm_compute; reflexivity|].
  vm_compute. discriminate.
Qed.

(** C2 as amended, on the same run: the limit [-1] leaves one of the
    two matches. *)
Lemma search_nonpositive_limit_witness :
  (-1 <= 0)%Z
  /\ exists results,
       fst (search_conversations "h" (-1)
              (run (env := steady) [Chat "Hello"] init))
       = Returns results
       /\ List.length results = 1.
Proof.
  split; [lia|].
  destruct (search_nonpositive_limit (env := steady) [Chat "Hello"] "h" (-1))
    as (results & H & _ & Hneg); [lia|].
  exists results. split; [exact H|].
  destruct Hneg as [-> _]; [lia|]. vm_compute. reflexivity.
Defined.

(** C3 at work: the limit [1] on the two matches of ["h"]. *)
Lemma search_at_most_k_witness :
  (0 < 1)%Z
  /\ exists results,
       fst (search_conversations "h" 1
              (run (env := steady) [Chat "Hello"] init))
       = Returns results
       /\ (Z.of_nat (List.length results) <= 1)%Z.
Proof.
  split; [lia|].
  destruct (search_at_most_k (env := steady) [Chat "Hello"] "h" 1)
    as (results & H & Hlen & _); [lia|].
  exists results. split; [exact H | exact Hlen].
Defined.

(** C4 fails as stated: a conversation started within the second in
    which an earlier one was started gets the same identifier, and its
    history shows the message of the earlier one. *)
Lemma start_then_history_nonempty :
  fst ((start_new_conversation (env := offline) ;;
        get_conversation_history None)
         (run (env := offline) [Start; Chat "Hello"] init))
  = Returns [Message "user" "Hello" "2024-01-01T12:00:00.000001"]
  /\ fst ((start_new_conversation (env := offline) ;;
           get_conversation_history None)
            (run (env := offline) [Start; Chat "Hello"] init))
     <> Returns [].
Proof.
  split; [vm_compute; reflexivity | vm_compute; discriminate].
Qed.

(** C4 as amended, on a new object: nothing is stored, and the
    history of the conversation just started is empty. *)
Lemma start_then_history_witness :
  fst ((start_new_conversation (env := steady) ;;
        get_conversation_history None) init)
  = Returns [].
Proof.
  apply (proj2 (start_then_history (env := steady) [])).
  intros d [].
Defined.

(** C5 at work: a message stored in the conversation started at noon
    is in its history. *)
Lemma store_then_history_witness :
  current_conversation_id (self (run (env := steady) [Start] init))
  = Some "20240101_120000"
  /\ exists h,
       fst ((_store_message (env := steady) "user" "hi" ;;
             get_conversation_history (Some "20240101_120000"))
              (run (env := steady) [Start] init))
       = Returns h
       /\ In (Message "user" "hi" "2024-01-01T12:00:01") h.
Proof.
  split; [reflexivity|].
  destruct (store_then_history (env := steady) [Start] "user" "hi"
              "20240101_120000" eq_refl)
    as (h & w' & H & Hin & _).
  exists h. split; [exact (f_equal fst H) | exact Hin].
Defined.

(** C6 fails as stated, in two ways.  When the clock is set back
    between the two messages, the assistant message has the earlier
    timestamp and comes first in the history.  And with a clock that
    only moves forward, a conversation started within the second in
    which an earlier one was started has the same identifier, and its
    history after one exchange holds the messages of both. *)
Lemma hello_exchange_fails :
  (fst ((start_new_conversation (env := set_back) ;;
         reply <- chat (env := set_back) "Hello" ;;
         history <- get_conversation_history None ;;
         ret (reply, history)) init)
   = Returns ("Hi there",
              [Message "assistant" "Hi there" "2024-10-27T02:00:02";
               Message "user" "Hello" "2024-10-27T02:59:59"])
   /\ String.leb "2024-10-27T02:59:59" "2024-10-27T02:00:02" = false)
  /\ fst ((start_new_conversation (env := quick) ;;
           reply <- chat (env := quick) "Hello" ;;
           history <- get_conversation_history None ;;
           ret (reply, history))
            (run (env := quick) [Start; Chat "x"] init))
     = Returns ("Hi there",
                [Message "user" "x" "2024-01-01T12:00:00.000001";
                 Message "assistant" "Hi there" "2024-01-01T12:00:00.000002";
                 Message "user" "Hello" "2024-01-01T12:00:00.000004";
                 Message "assistant" "Hi there"
                         "2024-01-01T12:00:00.000005"]).
Proof.
  split; [split|]; vm_compute; reflexivity.
Qed.

(** C6 as amended, with a clock that moves forward: the user message
    and then the assistant message. *)
Lemma hello_exchange_witness :
  fst ((start_new_conversation (env := steady) ;;
        reply <- chat (env := steady) "Hello" ;;
        history <- get_conversation_history None ;;
        ret (reply, history)) init)
  = Returns ("Hi there",
             [Message "user" "Hello" "2024-01-01T12:00:01";
              Message "assistant" "Hi there" "2024-01-01T12:00:02"]).
Proof.
  destruct (hello_exchange (env := steady) [] [])
    as (w' & H & _).
  - intros d [].
  - reflexivity.
  - apply slow_clock_mono. lia.
  - exact (f_equal fst H).
Defined.

(** C10 fails as stated: a conversation is active, it has no record
    yet, and [get_conversation_history("")] returns the empty list. *)
Lemma history_of_empty_id_active_and_empty :
  current_conversation_id (self (run (env := steady) [Start] init))
  = Some "20240101_120000"
  /\ fst (get_conversation_history (Some "")
            (run (env := steady) [Start] init))
     = Returns [].
Proof.
  split; vm_compute; reflexivity.
Qed.

(** C7 fails as stated: when the clock is set back between the two
    messages of an exchange, the timestamps of the conversation
    decrease in storage order. *)
Lemma storage_order_set_back :
  map msg_timestamp
      (stored_messages "20241027_025958"
         (document_store
            (self (run (env := set_back) [Start; Chat "Hello"] init))))
  = ["2024-10-27T02:59:59"; "2024-10-27T02:00:02"]
  /\ ~ StronglySorted not_later
         (stored_messages "20241027_025958"
            (document_store
               (self (run (env := set_back) [Start; Chat "Hello"] init)))).
Proof.
  split; [vm_compute; reflexivity|].
  intros H.
  assert (E : stored_messages "20241027_025958"
                (document_store
                   (self (run (env := set_back) [Start; Chat "Hello"] init)))
              = [Message "user" "Hello" "2024-10-27T02:59:59";
                 Message "assistant" "Hi there" "2024-10-27T02:00:02"])
    by (vm_compute; reflexivity).
  rewrite E in H. inversion H as [|a l _ Hall]; subst.
  inversion Hall as [|b l' Hab _]; subst.
  vm_compute in Hab. discriminate.
Qed.

(** C7 as amended, with a clock that moves forward: the records of
    the conversation are stored in the order of their timestamps. *)
Lemma history_sorted_by_timestamp_witness :
  StronglySorted not_later
    (stored_messages "20240101_120000"
       (document_store
          (self (run (env := steady) [Start; Chat "Hello"] init)))).
Proof.
  apply (proj2 (history_sorted_by_timestamp (env := steady)
                  [Start; Chat "Hello"] None)).
  apply slow_clock_mono.
Defined.

(* ================================================================= *)
(** * Further properties of the class *)

(* ================================================================= *)
(** ** What the queries leave alone *)

(** Decoding documents changes nothing, whether it ends or raises. *)
Lemma map_m_loads_frame (docs : list Document) (w : world) :
  snd (map_m (fun doc => loads (doc_content doc)) docs w) = w.
Proof.
  induction docs as [|d docs IH]; [reflexivity|].
  cbn [map_m]. rewrite bind_run. unfold loads at 1.
  destruct (json_loads (doc_content d)) as [m|]; [|reflexivity].
  rewrite ret_run, bind_run.
  destruct (map_m _ docs w) as [[ms|e] w'];
    cbn [snd] in IH; subst w'; reflexivity.
Qed.

Lemma search_loop_frame (query : string) (docs : list Document)
      (acc : list search_result) (w : world) :
  snd (for_each docs
         (fun doc results =>
            message <- loads (doc_content doc) ;;
            if Py.str_in (Py.lower query) (Py.lower (msg_content message))
            then ret (results ++
                      [SearchResult
                         (meta_conversation_id (doc_meta doc)) message
                         (if Py.str_in (Py.lower query)
                                       (Py.lower (msg_content message))
                          then 1%float else 0%float)])
            else ret results) acc w) = w.
Proof.
  revert acc. induction docs as [|d docs IH]; intros acc; [reflexivity|].
  cbn [for_each]. rewrite !bind_run. unfold loads at 1.
  destruct (json_loads (doc_content d)) as [m|]; [|reflexivity].
  rewrite ret_run.
  destruct (Py.str_in (Py.lower query) (Py.lower (msg_content m)));
    rewrite ret_run; apply IH.
Qed.

Lemma store_get_all_eq (filters : option (option string)) (w : world) :
  store_get_all filters w
  = (Returns (get_all_documents filters (document_store (self w))),
     with_trace w (trace w ++ [Queried filters])).
Proof. reflexivity. Qed.

Lemma history_frame (conversation_id : option string) (w : world) :
  snd (get_conversation_history conversation_id w) = w
  \/ exists id,
       Py.truthy (Some id) = true
       /\ Py.or_else conversation_id (current_conversation_id (self w))
          = Some id
       /\ snd (get_conversation_history conversation_id w)
          = with_trace w (trace w ++ [Queried (Some (Some id))]).
Proof.
  destruct (Py.truthy (Py.or_else conversation_id
                         (current_conversation_id (self w)))) eqn:E.
  - right. destruct (truthy_some _ E) as [id Hid]. exists id.
    split; [now rewrite <- Hid|]. split; [exact Hid|].
    unfold get_conversation_history, store_get_all, bind, get_self, log,
      ret.
    cbv beta zeta. rewrite E. cbn [negb]. rewrite Hid.
    match goal with
    | |- snd (match map_m ?f ?docs ?w0 with _ => _ end) = _ =>
        pose proof (map_m_loads_frame docs w0) as Hf;
        destruct (map_m f docs w0) as [[ms|e] w'];
        cbn [snd] in Hf; subst w'; reflexivity
    end.
  - left. now rewrite history_falsy.
Qed.

Lemma search_frame (query : string) (top_k : Z) (w : world) :
  snd (search_conversations query top_k w)
  = with_trace w (trace w ++ [Queried None]).
Proof.
  unfold search_conversations.
  rewrite bind_run, store_get_all_eq, bind_run.
  match goal with
  | |- snd (match for_each ?docs ?f ?acc ?w0 with _ => _ end) = _ =>
      pose proof (search_loop_frame query docs acc w0) as Hf;
      destruct (for_each docs f acc w0) as [[rs|e] w'];
      cbn [snd] in Hf; subst w'; reflexivity
  end.
Qed.

(** X1: [get_conversation_history] and [search_conversations] are
    read-only, in every state and whether they return or raise: the
    attributes of the object, the clock, the completion service and
    standard output are as before, and at most one request is made, to
    the store. *)
Theorem queries_read_only (conversation_id : option string)
        (query : string) (top_k : Z) (w : world) :
  let wh := snd (get_conversation_history conversation_id w) in
  let ws := snd (search_conversations query top_k w) in
  (self wh = self w /\ clock_reads wh = clock_reads w
   /\ client_calls wh = client_calls w /\ stdout wh = stdout w
   /\ (trace wh = trace w
       \/ exists id, trace wh = trace w ++ [Queried (Some (Some id))]))
  /\ (self ws = self w /\ clock_reads ws = clock_reads w
      /\ client_calls ws = client_calls w /\ stdout ws = stdout w
      /\ trace ws = trace w ++ [Queried None]).
Proof.
  intros wh ws. split.
  - subst wh. destruct (history_frame conversation_id w) as [->|(id & _ & _ & ->)].
    + repeat split; auto.
    + repeat split; try reflexivity. right. now exists id.
  - subst ws. rewrite search_frame. repeat split; reflexivity.
Qed.

(* ================================================================= *)
(** ** The store and the buffer over sequences of calls *)

Section Further.

Context {env : Env}.

Lemma chat_snd (user_input : string) (w : world) :
  snd (chat user_input w)
  = match completion user_input (stored "user" user_input (ensured w)) with
    | Returns reply =>
        stored "assistant" reply
               (asked user_input (stored "user" user_input (ensured w)))
    | Raises e =>
        printed ("Error communicating with Claude: " ++ str e)
                (asked user_input (stored "user" user_input (ensured w)))
    end.
Proof.
  rewrite chat_eq. cbv zeta. now destruct (completion _ _).
Qed.

Lemma exec_extends (c : call) (w : world) :
  exists ext,
    document_store (self (exec c w)) = document_store (self w) ++ ext.
Proof.
  destruct (ensured_frame w) as (Hst & _).
  destruct c as [|user_input|role content|conversation_id|query top_k];
    cbn [exec].
  - exists []. now rewrite app_nil_r.
  - rewrite chat_snd. destruct (completion _ _) as [reply|e].
    + rewrite !stored_eq. cbn [asked self document_store]. rewrite Hst.
      rewrite <- app_assoc. eauto.
    + rewrite !stored_eq. cbn [printed asked self document_store].
      rewrite Hst. eauto.
  - fold (stored role content w). rewrite stored_eq.
    cbn [self document_store]. eauto.
  - exists []. rewrite app_nil_r.
    destruct (history_frame conversation_id w) as [->|(id & _ & _ & ->)];
      reflexivity.
  - exists []. rewrite app_nil_r, search_frame. reflexivity.
Qed.

Lemma run_extends (calls : list call) (w : world) :
  exists ext,
    document_store (self (run calls w)) = document_store (self w) ++ ext.
Proof.
  revert w. induction calls as [|c calls IH]; intros w.
  - exists []. now rewrite app_nil_r.
  - cbn [run fold_left].
    destruct (IH (exec c w)) as [ext2 H2].
    destruct (exec_extends c w) as [ext1 H1].
    exists (ext1 ++ ext2). unfold run in H2. rewrite H2, H1.
    now rewrite app_assoc.
Qed.

Lemma run_app (calls more : list call) (w : world) :
  run (calls ++ more) w = run more (run calls w).
Proof. apply fold_left_app. Qed.

(** The documents of the messages of the buffer are the last ones of
    the store. *)
Definition buffer_is_tail (w : world) : Prop :=
  exists earlier,
    document_store (self w)
    = earlier ++ map (doc_of (current_conversation_id (self w)))
                     (messages (self w)).

Lemma buffer_is_tail_started (w : world) : buffer_is_tail (started w).
Proof.
  exists (document_store (self w)). unfold started.
  rewrite start_new_conversation_eq. cbn. now rewrite app_nil_r.
Qed.

Lemma buffer_is_tail_stored (role content : string) (w : world) :
  buffer_is_tail w -> buffer_is_tail (stored role content w).
Proof.
  intros [earlier H]. exists earlier. rewrite stored_eq.
  cbn [self document_store current_conversation_id messages].
  now rewrite H, map_app, app_assoc.
Qed.

Lemma buffer_is_tail_ensured (w : world) :
  buffer_is_tail w -> buffer_is_tail (ensured w).
Proof.
  intros H. unfold ensured.
  destruct (Py.truthy _); [exact H | apply buffer_is_tail_started].
Qed.

Lemma buffer_is_tail_exec (c : call) (w : world) :
  buffer_is_tail w -> buffer_is_tail (exec c w).
Proof.
  intros H.
  destruct c as [|user_input|role content|conversation_id|query top_k];
    cbn [exec].
  - apply buffer_is_tail_started.
  - rewrite chat_snd.
    pose proof (buffer_is_tail_stored "user" user_input _
                  (buffer_is_tail_ensured w H)) as H1.
    destruct (completion _ _) as [reply|e].
    + apply buffer_is_tail_stored. exact H1.
    + exact H1.
  - now apply buffer_is_tail_stored.
  - destruct (history_frame conversation_id w) as [->|(id & _ & _ & ->)];
      exact H.
  - rewrite search_frame. exact H.
Qed.

Lemma buffer_is_tail_run (calls : list call) :
  buffer_is_tail (run calls init).
Proof.
  assert (H : buffer_is_tail init) by (exists []; reflexivity).
  revert H. generalize init. induction calls as [|c calls IH]; intros w H.
  - exact H.
  - cbn [run fold_left]. apply IH, buffer_is_tail_exec, H.
Qed.

(** X3: after any sequence of calls, the messages of the in-memory
    buffer [self.messages] are the last documents of the store, in the
    same order and all tagged with the current conversation
    identifier; the store holds at least as many documents as the
    buffer holds messages. *)
Theorem buffer_mirrors_store (calls : list call) :
  let w := run calls init in
  exists earlier,
    document_store (self w)
    = earlier ++ map (doc_of (current_conversation_id (self w)))
                     (messages (self w))
    /\ List.length (messages (self w))
       <= List.length (document_store (self w)).
Proof.
  cbv zeta. destruct (buffer_is_tail_run calls) as [earlier H].
  exists earlier. split; [exact H|].
  rewrite H, length_app, length_map. lia.
Qed.

Lemma stored_messages_app_same (cid : string) (st : document_store_t)
      (ms : list message) :
  stored_messages cid (st ++ map (doc_of (Some cid)) ms)
  = stored_messages cid st ++ ms.
Proof.
  unfold stored_messages. cbn [get_all_documents].
  rewrite filter_app, map_app. f_equal.
  induction ms as [|m ms IH]; [reflexivity|].
  cbn [map filter]. rewrite matches_filter_same. cbn [map].
  now rewrite decode_doc_of, IH.
Qed.

(** X4: while a conversation is active, every message of the buffer
    [self.messages] is in what [get_conversation_history()] returns;
    and when the store holds as many records of the conversation as the
    buffer holds messages (no earlier conversation had the same
    identifier), the history is the buffer up to the order, and the
    buffer itself when the clock does not run backwards. *)
Theorem history_covers_buffer (calls : list call) (cid : string) :
  let w := run calls init in
  current_conversation_id (self w) = Some cid ->
  exists h,
    fst (get_conversation_history None w) = Returns h
    /\ incl (messages (self w)) h
    /\ (List.length (stored_messages cid (document_store (self w)))
        = List.length (messages (self w)) ->
        Permutation h (messages (self w))
        /\ ((forall i j, i <= j -> datetime_le (clock i) (clock j)) ->
            h = messages (self w))).
Proof.
  intros w Hcid.
  pose proof (inv_reachable calls) as Hinv. fold w in Hinv.
  assert (Ht : Py.truthy (Some cid) = true).
  { destruct (inv_cid w Hinv) as [H|H]; rewrite Hcid in H;
      [discriminate | exact H]. }
  destruct (buffer_is_tail_run calls) as [earlier He]. fold w in He.
  rewrite Hcid in He.
  eexists. rewrite (history_truthy None cid w);
    [ | now rewrite Hcid | exact Ht | now apply inv_well_formed ].
  cbn [fst]. split; [reflexivity|].
  assert (E : stored_messages cid (document_store (self w))
              = stored_messages cid earlier ++ messages (self w))
    by (rewrite He; apply stored_messages_app_same).
  split.
  - intros m Hm.
    apply (Permutation_in m (Permutation_sym (PyFacts.sort_perm _ _ _ _))).
    rewrite E. apply in_or_app. now right.
  - intros Hlen. rewrite E, length_app in Hlen.
    assert (E0 : stored_messages cid earlier = []).
    { destruct (stored_messages cid earlier); [reflexivity|].
      simpl in Hlen. lia. }
    rewrite E0 in E. cbn [app] in E. rewrite E. split.
    + apply PyFacts.sort_perm.
    + intros Hmono. apply sort_by_timestamp_id. rewrite <- E.
      unfold stored_messages.
      apply StronglySorted_map, StronglySorted_filter.
      eapply store_at_sorted; eauto using inv_store.
Qed.

(* ================================================================= *)
(** ** [chat], case by case *)

(** X5: when the service replies with at least one content block,
    [chat] returns the text of the first block (the others are not
    read); it writes the user document, calls the service once and then
    writes the assistant document, both under the current conversation,
    and prints nothing. *)
Theorem chat_reply (user_input reply : string) (more : list content_block)
        (w : world) :
  client (client_calls w) (model (self w)) user_input 1024
  = Returns (Response (TextBlock reply :: more)) ->
  exists (cid : string) (w' : world),
    let d1 := doc_of (Some cid)
                (Message "user" user_input
                         (isoformat (clock (clock_reads (ensured w))))) in
    let d2 := doc_of (Some cid)
                (Message "assistant" reply
                         (isoformat (clock (S (clock_reads (ensured w)))))) in
    chat user_input w = (Returns reply, w')
    /\ current_conversation_id (self w') = Some cid
    /\ document_store (self w') = document_store (self w) ++ [d1; d2]
    /\ trace w' = trace w ++ [Wrote d1;
                              Asked (model (self w)) user_input 1024;
                              Wrote d2]
    /\ stdout w' = stdout w
    /\ client_calls w' = S (client_calls w).
Proof.
  intros Hc.
  destruct (ensured_cid w) as (cid & Hcid & Ht).
  destruct (ensured_frame w) as (Hst & Htr & Hcc & Hmo & Hout).
  exists cid. eexists. cbv zeta.
  assert (Hcomp : completion user_input (stored "user" user_input (ensured w))
                  = Returns reply).
  { unfold completion. rewrite stored_eq.
    cbn [self client_calls model]. now rewrite Hcc, Hmo, Hc. }
  split.
  { rewrite chat_eq. cbv zeta. rewrite Hcomp. reflexivity. }
  rewrite !stored_eq.
  cbn [asked self document_store current_conversation_id trace clock_reads
       client_calls stdout model messages next_timestamp].
  rewrite Hcid, Hst, Htr, Hmo, Hout, Hcc.
  repeat split; now rewrite <- ?app_assoc.
Qed.

(** X6: a reply with no content block is handled as a failure of the
    service: reading [content[0]] raises inside the [try], so [chat]
    returns ["Error: list index out of range"], prints the error, and
    the store gains the user document only. *)
Theorem chat_empty_reply (user_input : string) (w : world) :
  client (client_calls w) (model (self w)) user_input 1024
  = Returns (Response []) ->
  exists (cid : string) (w' : world),
    let d1 := doc_of (Some cid)
                (Message "user" user_input
                         (isoformat (clock (clock_reads (ensured w))))) in
    chat user_input w = (Returns "Error: list index out of range", w')
    /\ document_store (self w') = document_store (self w) ++ [d1]
    /\ trace w' = trace w ++ [Wrote d1;
                              Asked (model (self w)) user_input 1024]
    /\ stdout w'
       = stdout w
         ++ ["Error communicating with Claude: list index out of range"].
Proof.
  intros Hc.
  destruct (ensured_cid w) as (cid & Hcid & Ht).
  destruct (ensured_frame w) as (Hst & Htr & Hcc & Hmo & Hout).
  exists cid. eexists. cbv zeta.
  assert (Hcomp : completion user_input (stored "user" user_input (ensured w))
                  = Raises (Exception "list index out of range")).
  { unfold completion. rewrite stored_eq.
    cbn [self client_calls model]. now rewrite Hcc, Hmo, Hc. }
  split.
  { rewrite chat_eq. cbv zeta. rewrite Hcomp. reflexivity. }
  rewrite !stored_eq.
  cbn [printed asked self document_store current_conversation_id trace
       clock_reads client_calls stdout model messages next_timestamp].
  rewrite Hcid, Hst, Htr, Hmo, Hout.
  repeat split; now rewrite <- ?app_assoc.
Qed.

(** X7: [chat] never raises, in any state and whatever the service
    does.  It calls the service exactly once, reads the clock at least
    once and at most three times, leaves a conversation active and has
    stored the user message under it. *)
Theorem chat_always_returns (user_input : string) (w : world) :
  exists (reply cid : string) (w' : world),
    chat user_input w = (Returns reply, w')
    /\ client_calls w' = S (client_calls w)
    /\ clock_reads w < clock_reads w' <= clock_reads w + 3
    /\ current_conversation_id (self w') = Some cid
    /\ In (doc_of (Some cid)
             (Message "user" user_input
                      (isoformat (clock (clock_reads (ensured w))))))
          (document_store (self w')).
Proof.
  destruct (ensured_cid w) as (cid & Hcid & Ht).
  destruct (ensured_frame w) as (Hst & Htr & Hcc & Hmo & Hout).
  assert (Hr : clock_reads w <= clock_reads (ensured w) <= clock_reads w + 1).
  { unfold ensured.
    destruct (Py.truthy (current_conversation_id (self w))); [lia|].
    unfold started. rewrite start_new_conversation_eq. cbn [snd clock_reads].
    lia. }
  rewrite chat_eq. cbv zeta.
  destruct (completion _ _) as [reply|e]; do 3 eexists;
    (split; [reflexivity|]);
    rewrite !stored_eq;
    cbn [printed asked self document_store current_conversation_id trace
         clock_reads client_calls stdout model messages next_timestamp];
    rewrite Hcid, Hcc;
    (split; [reflexivity|]); (split; [lia|]); (split; [reflexivity|]).
  - apply in_or_app. left. apply in_or_app. right. now left.
  - apply in_or_app. right. now left.
Qed.

(** X8: [chat] keeps the identifier of an active conversation, and
    with none active starts one whose identifier is the clock reading
    of that moment, after emptying the buffer; the buffer then gains
    the user message and, when the service replied, the assistant
    message. *)
Theorem chat_conversation_id (user_input : string) (w : world) :
  let w' := snd (chat user_input w) in
  let active := Py.truthy (current_conversation_id (self w)) in
  current_conversation_id (self w')
  = (if active then current_conversation_id (self w)
     else Some (strftime (clock (clock_reads w))))
  /\ exists new,
       messages (self w')
       = (if active then messages (self w) else []) ++ new
       /\ map msg_role new
          = match completion user_input (stored "user" user_input (ensured w))
            with
            | Returns _ => ["user"; "assistant"]
            | Raises _ => ["user"]
            end.
Proof.
  intros w' active. subst w'. rewrite chat_snd.
  assert (Hc : current_conversation_id (self (ensured w))
               = (if active then current_conversation_id (self w)
                  else Some (strftime (clock (clock_reads w))))
               /\ messages (self (ensured w))
                  = if active then messages (self w) else []).
  { unfold ensured. fold active. destruct active; split; reflexivity. }
  destruct Hc as [Hc Hm].
  destruct (completion _ _) as [reply|e]; rewrite !stored_eq;
    cbn [printed asked self document_store current_conversation_id trace
         clock_reads client_calls stdout model messages next_timestamp];
    rewrite Hc, Hm; (split; [reflexivity|]).
  - eexists. rewrite <- app_assoc. split; reflexivity.
  - eexists. split; reflexivity.
Qed.

(* ================================================================= *)
(** ** Identifiers and timestamps *)

(** The readings agree up to the second. *)
Definition same_second (a b : datetime) : Prop :=
  year a = year b /\ month a = month b /\ day a = day b
  /\ hour a = hour b /\ minute a = minute b /\ second a = second b.

Lemma compare_refl (s : string) : String.compare s s = Eq.
Proof.
  pose proof (String.compare_antisym s s) as H.
  destruct (String.compare s s); simpl in H; congruence.
Qed.

Lemma lex_eq (c k : comparison) : lex c k = Eq <-> c = Eq /\ k = Eq.
Proof. destruct c; simpl; intuition congruence. Qed.

(** Identifiers compare as the readings do, up to the second. *)
Lemma strftime_compare (a b : datetime) :
  wf_datetime a -> wf_datetime b ->
  String.compare (strftime a) (strftime b)
  = lex (N.compare (year a) (year b))
    (lex (N.compare (month a) (month b))
    (lex (N.compare (day a) (day b))
    (lex (N.compare (hour a) (hour b))
    (lex (N.compare (minute a) (minute b))
         (N.compare (second a) (second b)))))).
Proof.
  intros Ha Hb. unfold wf_datetime in *. unfold strftime.
  rewrite <- (DatetimeFacts.append_empty_r (digits 2 (second a))),
          <- (DatetimeFacts.append_empty_r (digits 2 (second b))).
  repeat (rewrite DatetimeFacts.digits_compare_small by (simpl; lia);
          cbn [String.append String.compare];
          try change (Ascii.compare "_" "_") with Eq;
          cbv iota).
  destruct (N.compare (second a) (second b)); reflexivity.
Qed.

(** X9: [start_new_conversation] gives two conversations the same
    identifier exactly when the clock readings at which they start
    agree up to the second, whatever their microseconds. *)
Theorem start_ids_collide (w1 w2 : world) :
  fst (start_new_conversation w1) = fst (start_new_conversation w2)
  <-> same_second (clock (clock_reads w1)) (clock (clock_reads w2)).
Proof.
  rewrite !start_new_conversation_eq. cbn [fst].
  pose proof (strftime_compare _ _ (clock_valid (clock_reads w1))
                (clock_valid (clock_reads w2))) as Hc.
  split.
  - intros H. apply Returns_eq in H. rewrite H, compare_refl in Hc.
    symmetry in Hc. rewrite !lex_eq in Hc.
    destruct Hc as (Hy & Hmo & Hd & Hh & Hmi & Hs).
    repeat split; now apply N.compare_eq_iff.
  - intros (Hy & Hmo & Hd & Hh & Hmi & Hs). f_equal.
    apply String.compare_eq_iff. rewrite Hc, Hy, Hmo, Hd, Hh, Hmi, Hs.
    now rewrite !N.compare_refl.
Qed.

(** X10: the timestamps [_store_message] writes compare as strings the
    way the clock readings compare in time, and two of them are equal
    only for equal readings: sorting by the [timestamp] field sorts by
    time. *)
Theorem timestamps_follow_clock (w1 w2 : world) :
  let t1 := clock (clock_reads w1) in
  let t2 := clock (clock_reads w2) in
  (string_le (next_timestamp w1) (next_timestamp w2) <-> datetime_le t1 t2)
  /\ (next_timestamp w1 = next_timestamp w2 <-> t1 = t2).
Proof.
  intros t1 t2. unfold next_timestamp. fold t1 t2.
  pose proof (DatetimeFacts.isoformat_compare t1 t2
                (clock_valid _) (clock_valid _)) as Hc.
  split.
  - unfold string_le, String.leb, datetime_le. rewrite Hc.
    destruct (datetime_compare t1 t2); split; congruence.
  - split; [|now intros ->].
    intros H. rewrite H, compare_refl in Hc. symmetry in Hc.
    unfold datetime_compare in Hc. rewrite !lex_eq in Hc.
    destruct Hc as (Hy & Hmo & Hd & Hh & Hmi & Hs & Hus).
    apply N.compare_eq_iff in Hy, Hmo, Hd, Hh, Hmi, Hs, Hus.
    destruct t1, t2; cbn in *; congruence.
Qed.

(* ================================================================= *)
(** ** More on search *)

Lemma scan_same_lower (q q' : string) (st : document_store_t) :
  Py.lower q = Py.lower q' -> scan q st = scan q' st.
Proof.
  intros H. unfold scan. f_equal. apply filter_ext.
  intros d. unfold is_match. now rewrite H.
Qed.

(** X11: the case of the letters of the query does not matter: two
    queries with the same lower-case form get the same results. *)
Theorem search_ignores_query_case (calls : list call) (q q' : string)
        (k : Z) :
  Py.lower q = Py.lower q' ->
  fst (search_conversations q k (run calls init))
  = fst (search_conversations q' k (run calls init)).
Proof.
  intros H.
  rewrite !search_eq by apply inv_well_formed, inv_reachable.
  cbn [fst]. now rewrite (scan_same_lower q q').
Qed.

(** X12: raising a non-negative limit only adds entries at the end:
    the results for a limit [k] are the first [k] of the results for a
    larger limit. *)
Theorem search_limit_prefix (calls : list call) (query : string)
        (k k' : Z) :
  (0 <= k <= k')%Z ->
  exists r r',
    fst (search_conversations query k (run calls init)) = Returns r
    /\ fst (search_conversations query k' (run calls init)) = Returns r'
    /\ r = firstn (Z.to_nat k) r'.
Proof.
  intros Hk. do 2 eexists.
  rewrite !search_eq by apply inv_well_formed, inv_reachable.
  cbn [fst]. split; [reflexivity|]. split; [reflexivity|].
  rewrite !PyFacts.slice_to_nonneg by lia.
  rewrite firstn_firstn. f_equal. lia.
Qed.

(** X13: search is over the whole store, not the current conversation:
    with a limit not below the number of stored documents, the entry
    of a stored document (its conversation identifier, its message and
    the score [1.0]) is returned exactly when the content of its
    message contains the query, both in lower case. *)
Theorem search_finds_all (calls : list call) (query : string) (k : Z) :
  let store := document_store (self (run calls init)) in
  (Z.of_nat (List.length store) <= k)%Z ->
  exists results,
    fst (search_conversations query k (run calls init)) = Returns results
    /\ forall d, In d store ->
         (In (SearchResult (meta_conversation_id (doc_meta d)) (decode d)
                           1%float) results
          <-> exists pre post,
                Py.lower (msg_content (decode d))
                = (pre ++ Py.lower query ++ post)%string).
Proof.
  intros store Hk. eexists.
  rewrite search_eq by apply inv_well_formed, inv_reachable.
  cbn [fst]. fold store. split; [reflexivity|].
  assert (Hall : Py.slice_to (scan query store) k = scan query store).
  { rewrite PyFacts.slice_to_nonneg by lia. apply firstn_all2.
    unfold scan. rewrite length_map.
    pose proof (filter_length_le (is_match query) store). lia. }
  rewrite Hall. intros d Hd. rewrite <- is_match_iff. unfold scan. split.
  - intros Hin. apply in_map_iff in Hin as (d' & E & Hd').
    apply filter_In in Hd' as [_ Hm]. injection E as _ E.
    unfold is_match in *. now rewrite <- E.
  - intros Hm. apply in_map_iff. exists d. split; [reflexivity|].
    apply filter_In. now split.
Qed.

(* ================================================================= *)
(** ** More on the history of a conversation *)

Lemma truthy_nonempty (id : string) : id <> "" -> Py.truthy (Some id) = true.
Proof. destruct id; [congruence | reflexivity]. Qed.

Lemma history_by_id (calls : list call) (id : string) :
  id <> "" ->
  get_conversation_history (Some id) (run calls init)
  = (Returns (Py.sort msg_timestamp String.ltb false
                (stored_messages id
                   (document_store (self (run calls init))))),
     with_trace (run calls init)
       (trace (run calls init) ++ [Queried (Some (Some id))])).
Proof.
  intros Hid. apply history_truthy.
  - apply or_else_truthy. now apply truthy_nonempty.
  - now apply truthy_nonempty.
  - apply inv_well_formed, inv_reachable.
Qed.

(** X14: the history of a conversation named by a non-empty identifier
    is exactly the messages of the records tagged with it, each once,
    whichever conversation is current; and when the clock does not run
    backwards they come in the order in which they were stored. *)
Theorem history_is_the_tagged_records (calls : list call) (id : string) :
  let w := run calls init in
  id <> "" ->
  exists h,
    fst (get_conversation_history (Some id) w) = Returns h
    /\ Permutation h (stored_messages id (document_store (self w)))
    /\ (forall m, In m h <->
          exists d, In d (document_store (self w))
                    /\ meta_conversation_id (doc_meta d) = Some id
                    /\ decode d = m)
    /\ ((forall i j, i <= j -> datetime_le (clock i) (clock j)) ->
        h = stored_messages id (document_store (self w))).
Proof.
  intros w Hid. eexists. unfold w. rewrite history_by_id by exact Hid.
  fold w. cbn [fst]. split; [reflexivity|].
  split; [apply PyFacts.sort_perm|]. split.
  - intros m. split.
    + intros Hm.
      apply (Permutation_in m (PyFacts.sort_perm _ _ _ _)) in Hm.
      unfold stored_messages in Hm. apply in_map_iff in Hm as (d & E & Hd).
      cbn [get_all_documents] in Hd. apply filter_In in Hd as [Hd Hf].
      exists d. repeat split; try assumption.
      unfold matches_filter in Hf.
      destruct (meta_conversation_id (doc_meta d)) as [c|]; [|discriminate].
      apply String.eqb_eq in Hf. now subst c.
    + intros (d & Hd & Htag & E).
      apply (Permutation_in m (Permutation_sym (PyFacts.sort_perm _ _ _ _))).
      unfold stored_messages. apply in_map_iff. exists d.
      split; [exact E|]. cbn [get_all_documents]. apply filter_In.
      split; [exact Hd|]. unfold matches_filter. rewrite Htag.
      apply String.eqb_refl.
  - intros Hmono. apply sort_by_timestamp_id. unfold stored_messages.
    apply StronglySorted_map, StronglySorted_filter.
    eapply store_at_sorted; [exact Hmono|].
    apply (inv_store w), inv_reachable.
Qed.

Lemma stored_messages_app (id : string) (st ext : document_store_t) :
  stored_messages id (st ++ ext)
  = stored_messages id st ++ stored_messages id ext.
Proof.
  unfold stored_messages. cbn [get_all_documents].
  now rewrite filter_app, map_app.
Qed.

(** X15: the records of a conversation stay retrievable by its
    identifier: whatever is called afterwards, a new conversation
    included, every message of its history is still in its history. *)
Theorem history_persists (calls more : list call) (id : string) :
  id <> "" ->
  exists h h',
    fst (get_conversation_history (Some id) (run calls init)) = Returns h
    /\ fst (get_conversation_history (Some id) (run (calls ++ more) init))
       = Returns h'
    /\ incl h h'.
Proof.
  intros Hid. do 2 eexists. rewrite !history_by_id by exact Hid.
  cbn [fst]. split; [reflexivity|]. split; [reflexivity|].
  intros m Hm.
  apply (Permutation_in m (PyFacts.sort_perm _ _ _ _)) in Hm.
  apply (Permutation_in m (Permutation_sym (PyFacts.sort_perm _ _ _ _))).
  rewrite run_app.
  destruct (run_extends more (run calls init)) as [ext ->].
  rewrite stored_messages_app. apply in_or_app. now left.
Qed.

(* ================================================================= *)
(** ** Conversations and their records *)

(** A call of a public method. *)
Definition is_public (c : call) : bool :=
  match c with
  | Store _ _ => false
  | _ => true
  end.

(** [d] was written at the [i]-th clock reading, under the identifier
    of a conversation started at an earlier reading [j], both before
    the [n]-th. *)
Definition tagged_before (n : nat) (d : Document) : Prop :=
  exists j i,
    j < i /\ i < n
    /\ meta_conversation_id (doc_meta d) = Some (strftime (clock j))
    /\ meta_timestamp (doc_meta d) = isoformat (clock i).

Definition started_before (n : nat) (cid : option string) : Prop :=
  exists j, j < n /\ cid = Some (strftime (clock j)).

Record public_inv (w : world) : Prop := mk_public_inv {
  pub_store : Forall (tagged_before (clock_reads w))
                     (document_store (self w));
  pub_cid : current_conversation_id (self w) = None
            \/ started_before (clock_reads w)
                 (current_conversation_id (self w))
}.

Lemma tagged_before_mono (n m : nat) (st : document_store_t) :
  n <= m -> Forall (tagged_before n) st -> Forall (tagged_before m) st.
Proof.
  intros Hnm H. apply Forall_forall. intros d Hd.
  destruct (proj1 (Forall_forall _ _) H d Hd) as (j & i & Hj & Hi & E).
  exists j, i. repeat split; try lia; apply E.
Qed.

Lemma public_inv_started (w : world) :
  public_inv w ->
  public_inv (started w)
  /\ started_before (clock_reads (started w))
       (current_conversation_id (self (started w))).
Proof.
  intros [Hs Hc]. unfold started. rewrite start_new_conversation_eq.
  cbn [snd self clock_reads document_store current_conversation_id].
  assert (Hb : started_before (S (clock_reads w))
                 (Some (strftime (clock (clock_reads w)))))
    by (exists (clock_reads w); split; [lia | reflexivity]).
  split; [|exact Hb]. split; cbn [self clock_reads document_store
                                  current_conversation_id].
  - apply (tagged_before_mono (clock_reads w)); [lia | exact Hs].
  - now right.
Qed.

Lemma public_inv_stored (role content : string) (w : world) :
  public_inv w ->
  started_before (clock_reads w) (current_conversation_id (self w)) ->
  public_inv (stored role content w)
  /\ started_before (clock_reads (stored role content w))
       (current_conversation_id (self (stored role content w))).
Proof.
  intros [Hs _] (j & Hj & Hc). rewrite stored_eq.
  cbn [self clock_reads document_store current_conversation_id].
  assert (Hb : started_before (S (clock_reads w))
                 (current_conversation_id (self w)))
    by (exists j; split; [lia | exact Hc]).
  split; [|exact Hb]. split; cbn [self clock_reads document_store
                                  current_conversation_id].
  - apply Forall_app. split.
    + apply (tagged_before_mono (clock_reads w)); [lia | exact Hs].
    + constructor; [|constructor]. exists j, (clock_reads w).
      repeat split; try lia. exact Hc.
  - now right.
Qed.

Lemma public_inv_ensured (w : world) :
  public_inv w ->
  public_inv (ensured w)
  /\ started_before (clock_reads (ensured w))
       (current_conversation_id (self (ensured w))).
Proof.
  intros H. unfold ensured.
  destruct (Py.truthy (current_conversation_id (self w))) eqn:E.
  - split; [exact H|]. destruct (pub_cid w H) as [Hn|Hb]; [|exact Hb].
    rewrite Hn in E. discriminate.
  - now apply public_inv_started.
Qed.

Lemma public_inv_exec (c : call) (w : world) :
  is_public c = true -> public_inv w -> public_inv (exec c w).
Proof.
  intros Hp H.
  destruct c as [|user_input|role content|conversation_id|query top_k];
    cbn [exec]; try discriminate.
  - now apply public_inv_started.
  - rewrite chat_snd.
    destruct (public_inv_ensured w H) as [H0 Hb0].
    destruct (public_inv_stored "user" user_input _ H0 Hb0) as [H1 Hb1].
    destruct (completion _ _) as [reply|e].
    + apply public_inv_stored.
      * destruct H1 as [Hs Hc]. split; assumption.
      * exact Hb1.
    + destruct H1 as [Hs Hc]. split; assumption.
  - destruct (history_frame conversation_id w) as [->|(id & _ & _ & ->)];
      [exact H|]. destruct H as [Hs Hc]. split; assumption.
  - rewrite search_frame. destruct H as [Hs Hc]. split; assumption.
Qed.

Lemma public_inv_run (calls : list call) (w : world) :
  forallb is_public calls = true -> public_inv w ->
  public_inv (run calls w).
Proof.
  revert w. induction calls as [|c calls IH]; intros w Hp H; [exact H|].
  cbn [forallb] in Hp. apply andb_prop in Hp as [Hc Hp].
  cbn [run fold_left]. apply IH; [exact Hp|].
  now apply public_inv_exec.
Qed.

(** X16: through the public methods, every stored record carries the
    identifier of a conversation that was started before the record
    was written: its tag is the identifier made from an earlier clock
    reading than the one its timestamp is made from. *)
Theorem records_belong_to_started_conversations (calls : list call) :
  forallb is_public calls = true ->
  forall d, In d (document_store (self (run calls init))) ->
    exists j i,
      j < i
      /\ meta_conversation_id (doc_meta d) = Some (strftime (clock j))
      /\ msg_timestamp (decode d) = isoformat (clock i)
      /\ meta_timestamp (doc_meta d) = isoformat (clock i).
Proof.
  intros Hp d Hd.
  assert (H0 : public_inv init) by (split; [constructor | now left]).
  pose proof (public_inv_run calls init Hp H0) as [Hs _].
  destruct (proj1 (Forall_forall _ _) Hs d Hd) as (j & i & Hj & Hi & Ec & Et).
  exists j, i. repeat split; try assumption.
  pose proof (inv_reachable calls) as [Hst _].
  clear - Hst Hd Et.
  induction Hst as [|n k st cid role content H IH Hk]; [destruct Hd|].
  apply in_app_or in Hd as [Hd|[<-|[]]]; [now apply IH|].
  rewrite decode_doc_of. exact Et.
Qed.

(** X17: what the store holds is what [_store_message] wrote: every
    stored document is the JSON text of a message, [json.loads] reads
    it back, and its [meta] role and timestamp are those of the
    message. *)
Theorem stored_documents_consistent (calls : list call) :
  forall d, In d (document_store (self (run calls init))) ->
    doc_content d = json_dumps (decode d)
    /\ json_loads (doc_content d) = Some (decode d)
    /\ meta_role (doc_meta d) = msg_role (decode d)
    /\ meta_timestamp (doc_meta d) = msg_timestamp (decode d).
Proof.
  intros d Hd. pose proof (inv_reachable calls) as [Hst _].
  induction Hst as [|n k st cid role content H IH Hk]; [destruct Hd|].
  apply in_app_or in Hd as [Hd|[<-|[]]]; [now apply IH|].
  rewrite decode_doc_of. repeat split. cbn [doc_of doc_content].
  apply json_loads_dumps.
Qed.

(* ================================================================= *)
(** ** The example run *)

Lemma for_each_print {A} (f : A -> string) (l : list A) (w : world) :
  for_each l (fun x _ => print (f x)) tt w
  = (Returns tt,
     mkWorld (self w) (clock_reads w) (client_calls w)
             (stdout w ++ map f l) (trace w)).
Proof.
  revert w. induction l as [|x l IH]; intros w.
  - cbn [for_each map]. rewrite app_nil_r. now destruct w.
  - cbn [for_each map]. rewrite bind_run. unfold print at 1.
    rewrite IH. cbn [self clock_reads client_calls stdout trace].
    now rewrite <- app_assoc.
Qed.

Lemma question_matches :
  Py.str_in (Py.lower "quantum") (Py.lower QUESTION) = true.
Proof.
  apply PyFacts.str_in_iff.
  exists "hello! can you help me understand ", " computing?".
  vm_compute. reflexivity.
Qed.

(** The state after the conversation of the example was started and
    the question sent. *)
Lemma example_chat :
  let cid := strftime (clock 0) in
  let m := Message "user" QUESTION (isoformat (clock 1)) in
  exists reply rest w1,
    chat QUESTION (started init) = (Returns reply, w1)
    /\ w1 = run [Start; Chat QUESTION] init
    /\ document_store (self w1) = doc_of (Some cid) m :: rest
    /\ current_conversation_id (self w1) = Some cid
    /\ client_calls w1 = 1
    /\ (stdout w1 = []
        \/ exists e, reply = ("Error: " ++ e)%string
                     /\ stdout w1
                        = [("Error communicating with Claude: " ++ e)%string]).
Proof.
  intros cid m.
  assert (Ha : ensured (started init) = started init)
    by (apply (ensured_active _ cid); [reflexivity | apply truthy_strftime]).
  assert (Hw : forall reply w1,
             chat QUESTION (started init) = (Returns reply, w1) ->
             w1 = run [Start; Chat QUESTION] init).
  { intros reply w1 H. cbn [run fold_left exec].
    fold (started init). now rewrite H. }
  rewrite chat_eq in *. cbv zeta in *. rewrite Ha in *.
  destruct (completion _ _) as [reply|e]; do 3 eexists;
    (split; [reflexivity|]); (split; [now apply (Hw _ _ eq_refl)|]);
    rewrite !stored_eq;
    cbn [printed asked self document_store current_conversation_id trace
         clock_reads client_calls stdout model messages next_timestamp];
    unfold started; rewrite start_new_conversation_eq;
    cbn [snd self document_store current_conversation_id clock_reads
         client_calls stdout init app];
    (split; [reflexivity|]); (split; [reflexivity|]);
    (split; [reflexivity|]).
  - now left.
  - right. exists (str e). split; reflexivity.
Qed.

(** X18: the example run never fails, whatever the clock and the
    service: [main] returns normally after exactly one call of the
    service and the [except] branch prints nothing.  It prints the
    reply (or the error text [chat] returned), the history, in which
    the question is, and the search results for ["quantum"], of which
    the first is always the question. *)
Theorem main_prints_the_question :
  let cid := strftime (clock 0) in
  let m := Message "user" QUESTION (isoformat (clock 1)) in
  exists reply history results before w',
    main init = (Returns tt, w')
    /\ client_calls w' = 1
    /\ stdout w'
       = before
         ++ [("Claude: " ++ reply)%string;
             (newline ++ "Conversation History:")%string]
         ++ map (fun x => (msg_role x ++ ": " ++ msg_content x)%string)
                history
         ++ [(newline ++ "Search Results for 'quantum':")%string]
         ++ map (fun r => ("Conversation "
                           ++ format_optional (sr_conversation_id r) ++ ": "
                           ++ msg_content (sr_message r))%string)
                results
    /\ (before = []
        \/ exists e, reply = ("Error: " ++ e)%string
                     /\ before
                        = [("Error communicating with Claude: " ++ e)%string])
    /\ In m history
    /\ hd_error results = Some (SearchResult (Some cid) m 1%float).
Proof.
  intros cid m.
  destruct example_chat as (reply & rest & w1 & Hchat & Hw1 & Hst & Hcid
                            & Hcc & Hout).
  fold cid m in Hst, Hcid.
  assert (Hwf : Forall well_formed (document_store (self w1)))
    by (rewrite Hw1; apply inv_well_formed, inv_reachable).
  exists reply,
    (Py.sort msg_timestamp String.ltb false
       (stored_messages cid (document_store (self w1)))),
    (Py.slice_to (scan "quantum" (document_store (self w1))) default_top_k),
    (stdout w1).
  eexists.
  unfold main. rewrite bind_run, start_new_conversation_eq.
  cbv beta iota. unfold try_except.
  change (mkWorld _ _ _ _ _) with (started init).
  rewrite bind_run, Hchat. cbv beta iota.
  rewrite bind_run. unfold print at 1. cbv beta iota.
  rewrite bind_run.
  rewrite (history_truthy None cid);
    [ | cbn [self]; now rewrite Hcid | apply truthy_strftime | exact Hwf ].
  cbv beta iota. rewrite bind_run. unfold print at 1. cbv beta iota.
  rewrite bind_run, for_each_print. cbv beta iota.
  rewrite bind_run, search_eq by exact Hwf. cbv beta iota.
  rewrite bind_run. unfold print at 1. cbv beta iota.
  rewrite for_each_print.
  cbn [with_trace self clock_reads client_calls stdout trace].
  split; [reflexivity|]. split; [exact Hcc|]. split.
  { now rewrite <- !app_assoc. }
  split; [exact Hout|]. split.
  - apply (Permutation_in m (Permutation_sym (PyFacts.sort_perm _ _ _ _))).
    rewrite Hst. unfold stored_messages. cbn [get_all_documents filter].
    rewrite matches_filter_same. cbn [map]. rewrite decode_doc_of. now left.
  - rewrite Hst, scan_cons. unfold is_match. rewrite decode_doc_of.
    cbn [msg_content m]. rewrite question_matches. reflexivity.
Qed.

End Further.

(* ================================================================= *)
(** ** Further sample runs *)

(** X4 at work: after one exchange in a conversation started at noon,
    both messages of the buffer are in the history. *)
Lemma history_covers_buffer_witness :
  current_conversation_id
    (self (run (env := steady) [Start; Chat "Hello"] init))
  = Some "20240101_120000"
  /\ exists h,
       fst (get_conversation_history None
              (run (env := steady) [Start; Chat "Hello"] init))
       = Returns h
       /\ incl (messages
                  (self (run (env := steady) [Start; Chat "Hello"] init)))
               h.
Proof.
  split; [reflexivity|].
  destruct (history_covers_buffer (env := steady) [Start; Chat "Hello"]
              "20240101_120000" eq_refl)
    as (h & H & Hincl & _).
  exists h. split; [exact H | exact Hincl].
Defined.

(** X5 at work: the greeting is returned on a new object. *)
Lemma chat_reply_witness :
  client (Env := steady) 0 MODEL_NAME "Hello" 1024
  = Returns (Response [TextBlock "Hi there"])
  /\ fst (chat (env := steady) "Hello" init) = Returns "Hi there".
Proof.
  split; [reflexivity|].
  destruct (chat_reply (env := steady) "Hello" "Hi there" [] init eq_refl)
    as (cid & w' & H & _).
  exact (f_equal fst H).
Defined.

(** X6 at work: a reply without content on a new object. *)
Lemma chat_empty_reply_witness :
  client (Env := mute) 0 MODEL_NAME "Hello" 1024 = Returns (Response [])
  /\ fst (chat (env := mute) "Hello" init)
     = Returns "Error: list index out of range".
Proof.
  split; [reflexivity|].
  destruct (chat_empty_reply (env := mute) "Hello" init eq_refl)
    as (cid & w' & H & _).
  exact (f_equal fst H).
Defined.

(** X11 at work: ["HELLO"] and ["hello"] are the same query. *)
Lemma search_ignores_query_case_witness :
  Py.lower "HELLO" = Py.lower "hello"
  /\ fst (search_conversations "HELLO" 5
            (run (env := steady) [Chat "Hello"] init))
     = fst (search_conversations "hello" 5
              (run (env := steady) [Chat "Hello"] init)).
Proof.
  split; [reflexivity|].
  apply (search_ignores_query_case (env := steady)). reflexivity.
Defined.

(** X12 at work: the limits [1] and [2] on the two matches of ["h"]. *)
Lemma search_limit_prefix_witness :
  (0 <= 1 <= 2)%Z
  /\ exists r r',
       fst (search_conversations "h" 1
              (run (env := steady) [Chat "Hello"] init)) = Returns r
       /\ fst (search_conversations "h" 2
                 (run (env := steady) [Chat "Hello"] init)) = Returns r'
       /\ r = firstn 1 r'.
Proof.
  split; [lia|].
  apply (search_limit_prefix (env := steady) [Chat "Hello"] "h" 1 2). lia.
Defined.

(** X13 at work: two documents are stored and the limit is [5]. *)
Lemma search_finds_all_witness :
  (Z.of_nat (List.length
               (document_store
                  (self (run (env := steady) [Chat "Hello"] init)))) <= 5)%Z
  /\ exists results,
       fst (search_conversations "hello" 5
              (run (env := steady) [Chat "Hello"] init))
       = Returns results.
Proof.
  split; [vm_compute; discriminate|].
  destruct (search_finds_all (env := steady) [Chat "Hello"] "hello" 5)
    as (results & H & _); [vm_compute; discriminate|].
  exists results. exact H.
Defined.

(** X14 at work: the history of the conversation started at noon. *)
Lemma history_is_the_tagged_records_witness :
  "20240101_120000" <> ""
  /\ exists h,
       fst (get_conversation_history (Some "20240101_120000")
              (run (env := steady) [Start; Chat "Hello"] init))
       = Returns h
       /\ Permutation h
            (stored_messages "20240101_120000"
               (document_store
                  (self (run (env := steady) [Start; Chat "Hello"] init)))).
Proof.
  split; [discriminate|].
  destruct (history_is_the_tagged_records (env := steady)
              [Start; Chat "Hello"] "20240101_120000")
    as (h & H & Hp & _); [discriminate|].
  exists h. split; [exact H | exact Hp].
Defined.

(** X15 at work: the conversation started at noon, after another one
    was started. *)
Lemma history_persists_witness :
  "20240101_120000" <> ""
  /\ exists h h',
       fst (get_conversation_history (Some "20240101_120000")
              (run (env := steady) [Start; Chat "Hello"] init))
       = Returns h
       /\ fst (get_conversation_history (Some "20240101_120000")
                 (run (env := steady)
                      ([Start; Chat "Hello"] ++ [Start; Chat "Again"]) init))
          = Returns h'
       /\ incl h h'.
Proof.
  split; [discriminate|].
  apply (history_persists (env := steady)). discriminate.
Defined.

(** X16 at work: the user document of a [chat] on a new object. *)
Lemma records_belong_to_started_conversations_witness :
  forallb is_public [Chat "Hello"] = true
  /\ exists j i,
       j < i
       /\ Some "20240101_120000" = Some (strftime (slow_clock j))
       /\ "2024-01-01T12:00:01" = isoformat (slow_clock i).
Proof.
  split; [reflexivity|].
  assert (Hin : In (doc_of (Some "20240101_120000")
                           (Message "user" "Hello" "2024-01-01T12:00:01"))
                   (document_store
                      (self (run (env := mute) [Chat "Hello"] init))))
    by (vm_compute; left; reflexivity).
  destruct (records_belong_to_started_conversations (env := mute)
              [Chat "Hello"] eq_refl _ Hin)
    as (j & i & Hj & Hc & _ & Ht).
  exists j, i. split; [exact Hj|]. split; [exact Hc | exact Ht].
Defined.

(** X17 at work: the same document. *)
Lemma stored_documents_consistent_witness :
  In (doc_of (Some "20240101_120000")
             (Message "user" "Hello" "2024-01-01T12:00:01"))
     (document_store (self (run (env := mute) [Chat "Hello"] init)))
  /\ meta_role
       (doc_meta (doc_of (Some "20240101_120000")
                         (Message "user" "Hello" "2024-01-01T12:00:01")))
     = msg_role
         (decode (doc_of (Some "20240101_120000")
                         (Message "user" "Hello" "2024-01-01T12:00:01"))).
Proof.
  assert (Hin : In (doc_of (Some "20240101_120000")
                           (Message "user" "Hello" "2024-01-01T12:00:01"))
                   (document_store
                      (self (run (env := mute) [Chat "Hello"] init))))
    by (vm_compute; left; reflexivity).
  split; [exact Hin|].
  exact (proj1 (proj2 (proj2 (stored_documents_consistent (env := mute)
                                [Chat "Hello"] _ Hin)))).
Defined.
